(** * Student / difficulty-type matcher: the TypeScript command layer

    A shallow embedding of [src/lib/command/upload.ts] and
    [src/lib/command/student-search.ts], and of the matching engine the
    command layer calls into.

    - JavaScript strings are sequences of UTF-16 code units: [list N].
    - A JavaScript object used as a dictionary is the [gmap] of its own
      properties; where the code reads a property of an object built
      from [{}], the members inherited from [Object.prototype] are
      read as well.
    - An [await]ed promise is the value it settles to: fulfilled with a
      value, or rejected with a reason. *)

From Stdlib Require Import ZArith NArith QArith Qround Lqa Ascii String.
From stdpp Require Import base option list gmap fin_maps.

Local Open Scope Z_scope.

(* ===================================================================== *)
(** * Definitions *)
(* ===================================================================== *)

(** ** JavaScript strings and the built-ins the code calls *)

Module JS.

(** A string is a list of UTF-16 code units, [length] is [String.length]. *)
Abbreviation jsstring := (list N).

(** Source literals are written in UTF-8; [utf16] re-encodes one as code
    units (a code point above U+FFFF becomes a surrogate pair). *)
Fixpoint utf16_of_utf8 (bs : list N) : jsstring :=
  let cont b := N.land b 0x3F in
  match bs with
  | [] => []
  | b0 :: rest =>
    if (b0 <? 0x80)%N then b0 :: utf16_of_utf8 rest
    else if (b0 <? 0xE0)%N then
      match rest with
      | b1 :: rest' =>
        N.lor (N.shiftl (N.land b0 0x1F) 6) (cont b1) :: utf16_of_utf8 rest'
      | _ => []
      end
    else if (b0 <? 0xF0)%N then
      match rest with
      | b1 :: b2 :: rest' =>
        N.lor (N.shiftl (N.land b0 0x0F) 12)
              (N.lor (N.shiftl (cont b1) 6) (cont b2)) :: utf16_of_utf8 rest'
      | _ => []
      end
    else
      match rest with
      | b1 :: b2 :: b3 :: rest' =>
        let cp := N.lor (N.shiftl (N.land b0 0x07) 18)
                 (N.lor (N.shiftl (cont b1) 12)
                 (N.lor (N.shiftl (cont b2) 6) (cont b3))) in
        let v := (cp - 0x10000)%N in
        (0xD800 + N.shiftr v 10)%N :: (0xDC00 + N.land v 0x3FF)%N
          :: utf16_of_utf8 rest'
      | _ => []
      end
  end.

Definition utf16 (s : string) : jsstring :=
  utf16_of_utf8 (N_of_ascii <$> list_ascii_of_string s).

(** [s.substring(start, end)]: both indices are clamped to [0, length]
    and swapped when out of order; a missing [end] is the length. *)
Definition substring (s : jsstring) (start : Z) (end_ : option Z) : jsstring :=
  let len := Z.of_nat (length s) in
  let clamp i := Z.min (Z.max i 0) len in
  let intStart := clamp start in
  let intEnd := from_option clamp len end_ in
  let from := Z.min intStart intEnd in
  let to := Z.max intStart intEnd in
  take (Z.to_nat (to - from)) (drop (Z.to_nat from) s).

(** ECMAScript WhiteSpace and LineTerminator code points, the ones
    [String.prototype.trim] strips. All lie in the BMP. *)
Definition isWhiteSpace (c : N) : bool :=
  ((c =? 0x0009) || (c =? 0x000A) || (c =? 0x000B) || (c =? 0x000C) ||
   (c =? 0x000D) || (c =? 0x0020) || (c =? 0x00A0) || (c =? 0x1680) ||
   ((0x2000 <=? c) && (c <=? 0x200A)) ||
   (c =? 0x2028) || (c =? 0x2029) || (c =? 0x202F) || (c =? 0x205F) ||
   (c =? 0x3000) || (c =? 0xFEFF))%N.

Fixpoint trimStart (s : jsstring) : jsstring :=
  match s with
  | c :: s' => if isWhiteSpace c then trimStart s' else s
  | [] => []
  end.

Definition trimEnd (s : jsstring) : jsstring :=
  reverse (trimStart (reverse s)).

(** [s.trim()] *)
Definition trim (s : jsstring) : jsstring := trimEnd (trimStart s).

(** ToBoolean on a string: only the empty string is falsy. *)
Definition truthy (s : jsstring) : bool :=
  match s with [] => false | _ => true end.

(** [a || b] on a value that may be [null]/[undefined] and a fallback. *)
Definition or_else (a : option jsstring) (b : jsstring) : jsstring :=
  match a with
  | Some s => if truthy s then s else b
  | None => b
  end.

(** [s.split(sep)] for a one-code-unit separator: never an empty array. *)
Fixpoint split (sep : N) (s : jsstring) : list jsstring :=
  match s with
  | [] => [[]]
  | c :: s' =>
    if (c =? sep)%N then [] :: split sep s'
    else match split sep s' with
         | piece :: pieces => (c :: piece) :: pieces
         | [] => [[c]]
         end
  end.

(** [arr.pop()]: the last element, [undefined] on an empty array (the
    array left behind is not used by the code). *)
Definition pop {A} (arr : list A) : option A := last arr.

Fixpoint startsWith (t s : jsstring) : bool :=
  match t, s with
  | [], _ => true
  | _ :: _, [] => false
  | a :: t', b :: s' => (a =? b)%N && startsWith t' s'
  end.

(** [s.includes(t)]: [t] occurs in [s] as a contiguous run of code units. *)
Fixpoint includes (s t : jsstring) : bool :=
  startsWith t s ||
  match s with
  | [] => false
  | _ :: s' => includes s' t
  end.

End JS.
Import JS.

(** ** upload.ts: types *)

(** [DifficultyType]: the union of the ten literal types. *)
Inductive DifficultyType :=
| PovertyReliefWithPolicy
| PovertyReliefWithoutPolicy
| CertifiedDisabled
| RuralSubsistence
| UrbanSubsistence
| UrbanRuralDestitute
| MonitoredRiskRemaining
| MonitoredRiskCleared
| OrphanOrUnattended
| LowIncome.

(** The string each member is at run time. None of them is the name of a
    property that a fresh [{}] inherits from [Object.prototype]
    ([label_own_key] below). *)
Definition label (t : DifficultyType) : jsstring :=
  match t with
  | PovertyReliefWithPolicy => utf16 "脱贫户(继续享受政策)"
  | PovertyReliefWithoutPolicy => utf16 "脱贫户(不享受政策)"
  | CertifiedDisabled => utf16 "持证残疾人"
  | RuralSubsistence => utf16 "农村低保"
  | UrbanSubsistence => utf16 "城镇低保"
  | UrbanRuralDestitute => utf16 "城乡特困"
  | MonitoredRiskRemaining => utf16 "防返贫监测对象(风险未消除)"
  | MonitoredRiskCleared => utf16 "防返贫监测对象(风险已消除)"
  | OrphanOrUnattended => utf16 "孤儿及事实无人抚养儿童"
  | LowIncome => utf16 "低收入人口"
  end.

Definition allDifficultyTypes : list DifficultyType :=
  [ PovertyReliefWithPolicy; PovertyReliefWithoutPolicy; CertifiedDisabled;
    RuralSubsistence; UrbanSubsistence; UrbanRuralDestitute;
    MonitoredRiskRemaining; MonitoredRiskCleared; OrphanOrUnattended;
    LowIncome ].

#[global] Instance DifficultyType_eq_dec : EqDecision DifficultyType.
Proof. solve_decision. Defined.

Definition DifficultyType_index (t : DifficultyType) : nat :=
  match t with
  | PovertyReliefWithPolicy => 0
  | PovertyReliefWithoutPolicy => 1
  | CertifiedDisabled => 2
  | RuralSubsistence => 3
  | UrbanSubsistence => 4
  | UrbanRuralDestitute => 5
  | MonitoredRiskRemaining => 6
  | MonitoredRiskCleared => 7
  | OrphanOrUnattended => 8
  | LowIncome => 9
  end%nat.

#[global] Program Instance DifficultyType_countable : Countable DifficultyType :=
  inj_countable DifficultyType_index (λ i, allDifficultyTypes !! i) _.
Next Obligation. by intros []. Qed.

(** [CommandResult<T>]: what every backend command answers with. *)
Module CommandResult.
Record t (T : Type) := mk {
  success : bool;
  data : option T;          (* T | null *)
  error : option jsstring;  (* string | null *)
}.
Arguments mk {T}.
Arguments success {T}.
Arguments data {T}.
Arguments error {T}.
End CommandResult.

Record Student := {
  name : jsstring;
  id_number : jsstring;
  student_id : option jsstring;
  class : option jsstring;
  grade : option jsstring;
  school : option jsstring;
}.

(** [DifficultPerson]; its [id_number] field is [person_id_number] here. *)
Record DifficultPerson := {
  person_id_number : jsstring;
  difficulty_type : DifficultyType;
}.

Record MatchResult := {
  student : Student;
  difficult_info : DifficultPerson;
}.

(** The other revision of upload.ts declares the difficulty record as
    [DifficultStudent], whose [difficulty_type] is any string, and
    [MatchResult] over it. *)
Module DifficultStudent.
Record t := mk {
  name : jsstring;
  id_number : jsstring;
  difficulty_type : jsstring;
  source_file : jsstring;
  extra_info : gmap jsstring jsstring;
}.
End DifficultStudent.

Module Upload.
Record MatchResult := mk {
  student : Student;
  difficult_info : DifficultStudent.t;
}.
End Upload.

(** [result.difficult_info.difficulty_type]: a string at run time,
    whichever of the two declarations the result has. *)
Class DifficultyTyped (Result : Type) :=
  difficulty_type_of : Result → jsstring.

#[global] Instance MatchResult_typed : DifficultyTyped MatchResult :=
  λ result, label (difficulty_type (difficult_info result)).

#[global] Instance Upload_MatchResult_typed
  : DifficultyTyped Upload.MatchResult :=
  λ result, DifficultStudent.difficulty_type (Upload.difficult_info result).

(** ** Object literals used as dictionaries *)

(** The names a fresh object literal inherits from [Object.prototype]. *)
Definition objectPrototypeKeys : list jsstring :=
  utf16 <$> [ "constructor"; "__proto__"; "hasOwnProperty"; "isPrototypeOf";
              "propertyIsEnumerable"; "toLocaleString"; "toString"; "valueOf";
              "__defineGetter__"; "__defineSetter__"; "__lookupGetter__";
              "__lookupSetter__" ]%string.

(** How a synchronous call ends: with a value, or with a [TypeError]
    thrown to the caller. *)
Inductive Completion (T : Type) :=
| Returns (value : T)
| ThrowsTypeError.
Arguments Returns {T}.
Arguments ThrowsTypeError {T}.

Definition and_then {A B} (c : Completion A) (f : A → Completion B)
  : Completion B :=
  match c with
  | Returns a => f a
  | ThrowsTypeError => ThrowsTypeError
  end.

(** [arr.forEach(f)] with a callback that updates an accumulator and may
    throw: a throw ends the loop. *)
Definition forEach {A S} (f : S → A → Completion S) (init : S) (arr : list A)
  : Completion S :=
  foldl (λ acc x, and_then acc (λ s, f s x)) (Returns init) arr.

(** What [grouped[key]] reads on an object built from [{}] whose own
    properties are arrays: an own array, a property inherited from
    [Object.prototype] (a function or an object: truthy, and without a
    [push] method), or [undefined]. *)
Inductive Property (A : Type) :=
| OwnArray (group : list A)
| Inherited
| Undefined.
Arguments OwnArray {A}.
Arguments Inherited {A}.
Arguments Undefined {A}.

Definition get {A} (grouped : gmap jsstring (list A)) (key : jsstring)
  : Property A :=
  match grouped !! key with
  | Some group => OwnArray group
  | None =>
    if bool_decide (key ∈ objectPrototypeKeys) then Inherited else Undefined
  end.

(** [!grouped[key]] *)
Definition missing {A} (grouped : gmap jsstring (list A)) (key : jsstring)
  : bool :=
  match get grouped key with
  | Undefined => true
  | _ => false
  end.

(** [grouped[key].push(match)]: appends to an own array; calling the
    absent [push] of anything else is a [TypeError]. *)
Definition push {A} (grouped : gmap jsstring (list A)) (key : jsstring)
    (match_ : A) : Completion (gmap jsstring (list A)) :=
  match get grouped key with
  | OwnArray group => Returns (<[key := group ++ [match_]]> grouped)
  | _ => ThrowsTypeError
  end.

(** What a property of the counts object of [generateMatchSummary] holds:
    a number, or a string. The only strings that arise are the string form
    of the inherited member of that name (the source text of a built-in
    function, "[object Object]" for an object) followed by some
    characters "1"; [Text ones] is that string with [ones] of them. Counts
    never exceed an array length, so the arithmetic on doubles is exact
    and [nat] stands for [number]. *)
Inductive CountValue :=
| Number (n : nat)
| Text (ones : nat).

(** [counts[type]]: the own property, else the inherited member, else
    [undefined] ([None]). *)
Definition read_count (counts : gmap jsstring CountValue) (type : jsstring)
  : option CountValue :=
  match counts !! type with
  | Some value => Some value
  | None =>
    if bool_decide (type ∈ objectPrototypeKeys) then Some (Text 0) else None
  end.

(** [(value || 0) + 1]: [undefined] and [0] are falsy; a string (never
    empty here) is truthy and [+ 1] appends "1" to it. *)
Definition or_zero_plus_one (value : option CountValue) : CountValue :=
  match value with
  | Some (Number n) => Number (n + 1)
  | Some (Text ones) => Text (ones + 1)
  | None => Number 1
  end.

(** [counts[type] = value] for a number or a string: an own property is
    created or overwritten, except under the name "__proto__", whose
    inherited setter ignores a value that is not an object. *)
Definition assign_count (counts : gmap jsstring CountValue) (type : jsstring)
    (value : CountValue) : gmap jsstring CountValue :=
  if bool_decide (type = utf16 "__proto__") then counts
  else <[type := value]> counts.

(** ** upload.ts: functions *)

Section Upload.
(** [String.prototype.toLowerCase], the Unicode default case conversion,
    is taken as given. *)
Variable toLowerCase : jsstring → jsstring.

Definition isExcelFile (fileName : jsstring) : bool :=
  let extension := pop (split 0x2E (toLowerCase fileName)) in
  bool_decide (extension = Some (utf16 "xlsx"))
  || bool_decide (extension = Some (utf16 "xls")).

End Upload.

Module MatchSummary.
Record t := mk {
  totalMatches : nat;
  difficultyTypeCounts : gmap jsstring CountValue;
}.
End MatchSummary.

Definition generateMatchSummary {Result} `{DifficultyTyped Result}
    (results : list Result) : MatchSummary.t :=
  let difficultyTypeCounts :=
    foldl (λ (counts : gmap jsstring CountValue) result,
             let type := difficulty_type_of result in
             assign_count counts type
               (or_zero_plus_one (read_count counts type)))
          ∅ results in
  {| MatchSummary.totalMatches := length results;
     MatchSummary.difficultyTypeCounts := difficultyTypeCounts |}.

Definition maskIdNumber (idNumber : jsstring) : jsstring :=
  let length := Z.of_nat (length idNumber) in
  if 6 <=? length then
    substring idNumber 0 (Some 3) ++ utf16 "****"
      ++ substring idNumber (length - 3) None
  else utf16 "****".

(** ** student-search.ts *)

Record MatchStatistics := {
  total_students : nat;
  total_matches : nat;
  difficulty_type_counts : gmap DifficultyType nat;
}.

(** The literal [{ total_students: 0, total_matches: 0,
    difficulty_type_counts: {} }]. *)
Definition noStatistics : MatchStatistics :=
  {| total_students := 0; total_matches := 0; difficulty_type_counts := ∅ |}.

(** What an awaited promise settles to. A rejection reason is kept as the
    string a template literal renders it to. *)
Inductive Settled (T : Type) :=
| Fulfilled (value : T)
| Rejected (reason : jsstring).
Arguments Fulfilled {T}.
Arguments Rejected {T}.

(** Which of two concurrent calls settles first. *)
Inductive Race := FirstWins | SecondWins.

(** [Promise.all([p, q])]: fulfilled with both values once both are;
    rejected with the reason of whichever input rejects first. *)
Definition promiseAll {A B} (race : Race) (p : Settled A) (q : Settled B)
  : Settled (A * B) :=
  match p, q with
  | Fulfilled a, Fulfilled b => Fulfilled (a, b)
  | Rejected r, Fulfilled _ => Rejected r
  | Fulfilled _, Rejected r => Rejected r
  | Rejected r1, Rejected r2 =>
    Rejected (match race with FirstWins => r1 | SecondWins => r2 end)
  end.

(** The backend behind [invoke]: each command, given its arguments,
    settles to a [CommandResult] or rejects. *)
Record Backend := {
  find_students_by_difficulty :
    jsstring → jsstring → jsstring →
    Settled (CommandResult.t (list MatchResult));
  get_students_match_statistics :
    jsstring → jsstring → jsstring →
    Settled (CommandResult.t MatchStatistics);
  race : Race;
}.

Definition findStudentsByDifficulty (invoke : Backend)
    (studentFilePath difficultyFilePath difficultyType : jsstring) :=
  find_students_by_difficulty invoke
    studentFilePath difficultyFilePath difficultyType.

Definition getStudentsMatchStatistics (invoke : Backend)
    (studentFilePath difficultyFilePath difficultyType : jsstring) :=
  get_students_match_statistics invoke
    studentFilePath difficultyFilePath difficultyType.

Module SearchResult.
Record t := mk {
  matches : list MatchResult;
  statistics : MatchStatistics;
  success : bool;
  error : option jsstring;  (* error?: string *)
}.
End SearchResult.

(** The body of the [async] function: [Fulfilled] is a [return],
    [Rejected] would be an exception escaping to the caller. *)
Definition executeStudentSearch (invoke : Backend)
    (studentFilePath difficultyFilePath difficultyType : jsstring)
  : Settled SearchResult.t :=
  match
    promiseAll (race invoke)
      (findStudentsByDifficulty invoke
         studentFilePath difficultyFilePath difficultyType)
      (getStudentsMatchStatistics invoke
         studentFilePath difficultyFilePath difficultyType)
  with
  | Fulfilled (matchResult, statsResult) =>
    if negb (CommandResult.success matchResult) then
      Fulfilled
        {| SearchResult.matches := [];
           SearchResult.statistics := noStatistics;
           SearchResult.success := false;
           SearchResult.error :=
             Some (or_else (CommandResult.error matchResult)
                           (utf16 "查找学生失败")) |}
    else if negb (CommandResult.success statsResult) then
      Fulfilled
        {| SearchResult.matches := default [] (CommandResult.data matchResult);
           SearchResult.statistics := noStatistics;
           SearchResult.success := false;
           SearchResult.error :=
             Some (or_else (CommandResult.error statsResult)
                           (utf16 "获取统计信息失败")) |}
    else
      Fulfilled
        {| SearchResult.matches := default [] (CommandResult.data matchResult);
           SearchResult.statistics :=
             default noStatistics (CommandResult.data statsResult);
           SearchResult.success := true;
           SearchResult.error := None |}
  | Rejected error =>
    Fulfilled
      {| SearchResult.matches := [];
         SearchResult.statistics := noStatistics;
         SearchResult.success := false;
         SearchResult.error := Some (utf16 "执行查找时发生错误: " ++ error) |}
  end.


(** ** student-search.ts: the groupings keyed by free text *)

Definition groupMatchesBySchool (matches : list MatchResult)
  : Completion (gmap jsstring (list MatchResult)) :=
  forEach (λ (grouped : gmap jsstring (list MatchResult)) match_,
             let school :=
               or_else (school (student match_)) (utf16 "未知学校") in
             let grouped :=
               if missing grouped school then <[school := []]> grouped
               else grouped in
             push grouped school match_)
          ∅ matches.

Definition groupMatchesByGrade (matches : list MatchResult)
  : Completion (gmap jsstring (list MatchResult)) :=
  forEach (λ (grouped : gmap jsstring (list MatchResult)) match_,
             let grade :=
               or_else (grade (student match_)) (utf16 "未知年级") in
             let grouped :=
               if missing grouped grade then <[grade := []]> grouped
               else grouped in
             push grouped grade match_)
          ∅ matches.

Section Search.
Variable toLowerCase : jsstring → jsstring.

(** [field && field.toLowerCase().includes(term)] on an optional field:
    a missing or empty field is falsy. *)
Definition optional_includes (field : option jsstring) (term : jsstring) : bool :=
  match field with
  | Some s => truthy s && includes (toLowerCase s) term
  | None => false
  end.

(** The callback given to [matches.filter]. *)
Definition matchesTerm (term : jsstring) (match_ : MatchResult) : bool :=
  includes (toLowerCase (name (student match_))) term
  || includes (id_number (student match_)) term
  || optional_includes (student_id (student match_)) term
  || optional_includes (class (student match_)) term.

Definition searchInMatches (matches : list MatchResult) (searchTerm : jsstring)
  : list MatchResult :=
  if negb (truthy (trim searchTerm)) then matches
  else
    let term := trim (toLowerCase searchTerm) in
    List.filter (matchesTerm term) matches.

End Search.

Module Validation.
Record t := mk {
  valid : bool;
  error : option jsstring;  (* error?: string *)
}.
End Validation.

Definition validateSearchParameters
    (studentFilePath difficultyFilePath difficultyType : jsstring)
  : Validation.t :=
  if negb (truthy (trim studentFilePath)) then
    {| Validation.valid := false;
       Validation.error := Some (utf16 "请选择学生信息表文件") |}
  else if negb (truthy (trim difficultyFilePath)) then
    {| Validation.valid := false;
       Validation.error := Some (utf16 "请选择困难类型数据表文件") |}
  else if negb (truthy (trim difficultyType)) then
    {| Validation.valid := false;
       Validation.error := Some (utf16 "请选择困难类型") |}
  else
    {| Validation.valid := true; Validation.error := None |}.

(** ** formatBytes *)

(** Numbers here are the finite doubles, read as the rationals they are:
    comparing with 1024 and dividing by 1024 (a power of two, on a value of
    at least 1024) are exact on them. *)

Fixpoint uint_codes (d : Decimal.uint) : jsstring :=
  match d with
  | Decimal.Nil => []
  | Decimal.D0 d => 0x30%N :: uint_codes d
  | Decimal.D1 d => 0x31%N :: uint_codes d
  | Decimal.D2 d => 0x32%N :: uint_codes d
  | Decimal.D3 d => 0x33%N :: uint_codes d
  | Decimal.D4 d => 0x34%N :: uint_codes d
  | Decimal.D5 d => 0x35%N :: uint_codes d
  | Decimal.D6 d => 0x36%N :: uint_codes d
  | Decimal.D7 d => 0x37%N :: uint_codes d
  | Decimal.D8 d => 0x38%N :: uint_codes d
  | Decimal.D9 d => 0x39%N :: uint_codes d
  end.

(** The decimal digits of a natural number, "0" for zero. *)
Definition decimal (n : N) : jsstring := uint_codes (N.to_uint n).

(** The integer [n] for which [n / 100] is nearest to [x], the larger one
    when two are as near. *)
Definition hundredths (x : Q) : N := Z.to_N (Qfloor (x * 100 + (1 # 2))).

(** The digits of a number of hundredths: padded with zeros to three
    digits, with a point before the last two. *)
Definition fixed2 (n : N) : jsstring :=
  let m := decimal n in
  let m := replicate (3 - length m) 0x30%N ++ m in
  take (length m - 2) m ++ utf16 "." ++ drop (length m - 2) m.

(** [x.toFixed(2)] for a finite [x] of magnitude below 10^21: the sign
    when [x < 0], then the magnitude rounded to hundredths. *)
Definition toFixed2 (x : Q) : jsstring :=
  if Qle_bool 0 x then fixed2 (hundredths x)
  else utf16 "-" ++ fixed2 (hundredths (- x)).

Definition units : list jsstring := utf16 <$> ["B"; "KB"; "MB"; "GB"]%string.

(** The [while] loop of [formatBytes], for at most [fuel] rounds. *)
Fixpoint formatBytes_loop (fuel : nat) (bytes : Q) (i : nat) : Q * nat :=
  match fuel with
  | O => (bytes, i)
  | S fuel =>
    if Qle_bool 1024 bytes && (i <? length units - 1)%nat then
      formatBytes_loop fuel (bytes / 1024)%Q (S i)
    else (bytes, i)
  end.

(** The loop condition, which is false when the loop is left. *)
Definition formatBytes_continues (state : Q * nat) : bool :=
  Qle_bool 1024 (fst state) && (snd state <? length units - 1)%nat.

(** [formatBytes]: every round increments [i], which stays below
    [units.length - 1], so [units.length] rounds are enough
    ([formatBytes_loop_ends]). An index outside [units] would read
    [undefined]. *)
Definition formatBytes (bytes : Q) : jsstring :=
  let '(bytes, i) := formatBytes_loop (length units) bytes 0 in
  toFixed2 bytes ++ utf16 " "
    ++ from_option id (utf16 "undefined") (units !! i).

(** ** upload.ts: the file dialogs *)

(** What the dialog plugin's [open] resolves to: [null], one path, or an
    array of paths. *)
Inductive Selection :=
| NoSelection
| OnePath (path : jsstring)
| SeveralPaths (paths : list jsstring).

(** [openFileDialog]: [open] is the plugin call, given the title and the
    extensions of the filter. Reading [selected[0]] in an empty array gives
    [undefined], which like [null] is [None] here. *)
Definition openFileDialog
    (open : jsstring → list jsstring → Settled Selection)
    (title : jsstring) (extensions : option (list jsstring))
  : Settled (option jsstring) :=
  let extensions := default [utf16 "xlsx"; utf16 "xls"] extensions in
  match open title extensions with
  | Fulfilled selected =>
    Fulfilled match selected with
              | SeveralPaths paths => paths !! 0%nat
              | OnePath path => Some path
              | NoSelection => None
              end
  | Rejected _ => Fulfilled None
  end.

(** [saveFileDialog]: [save] is the plugin call, given the title, the
    default name and the extensions of the filter; it resolves to a path
    or to [null]. *)
Definition saveFileDialog
    (save : jsstring → option jsstring → list jsstring
            → Settled (option jsstring))
    (title : jsstring) (defaultName : option jsstring)
    (extensions : option (list jsstring))
  : Settled (option jsstring) :=
  let extensions := default [utf16 "xlsx"] extensions in
  match save title defaultName extensions with
  | Fulfilled selected => Fulfilled selected
  | Rejected _ => Fulfilled None
  end.

(** ** StudentMatcher.svelte: the component *)

Module FileInfo.
Record t := mk {
  name : jsstring;
  path : jsstring;
  size : Q;
  extension : jsstring;
}.
End FileInfo.

Module DifficultyTypeOption.
Record t := mk {
  label : jsstring;
  value : jsstring;
}.
End DifficultyTypeOption.

(** [arr.slice(start, end)]: a negative index counts from the end, both
    are clamped to the array, and an empty range gives an empty array. *)
Definition slice {A} (arr : list A) (start end_ : Z) : list A :=
  let len := Z.of_nat (length arr) in
  let relative i := if i <? 0 then Z.max (len + i) 0 else Z.min i len in
  let k := relative start in
  let final := relative end_ in
  take (Z.to_nat (final - k)) (drop (Z.to_nat k) arr).

(** [s.endsWith(t)] *)
Definition endsWith (s t : jsstring) : bool :=
  bool_decide (drop (length s - length t) s = t).

(** The reactive state of the component: its [$state] variables. Page
    numbers and the page size are integers. *)
Module Component.
Record t := mk {
  studentFile : option FileInfo.t;
  difficultyFile : option FileInfo.t;
  selectedDifficultyType : jsstring;
  difficultyTypeOptions : list DifficultyTypeOption.t;
  matchResults : list MatchResult;
  matchStatistics : option MatchStatistics;
  isLoading : bool;
  error : jsstring;
  success : jsstring;
  hasSearched : bool;
  isExporting : bool;
  currentPage : Z;
  itemsPerPage : Z;
}.

(** The assignment [studentFile = v]. *)
Definition set_studentFile (v : option FileInfo.t) (s : t) : t :=
  {| studentFile := v;
     difficultyFile := difficultyFile s;
     selectedDifficultyType := selectedDifficultyType s;
     difficultyTypeOptions := difficultyTypeOptions s;
     matchResults := matchResults s;
     matchStatistics := matchStatistics s;
     isLoading := isLoading s;
     error := error s;
     success := success s;
     hasSearched := hasSearched s;
     isExporting := isExporting s;
     currentPage := currentPage s;
     itemsPerPage := itemsPerPage s |}.

(** The assignment [difficultyFile = v]. *)
Definition set_difficultyFile (v : option FileInfo.t) (s : t) : t :=
  {| studentFile := studentFile s;
     difficultyFile := v;
     selectedDifficultyType := selectedDifficultyType s;
     difficultyTypeOptions := difficultyTypeOptions s;
     matchResults := matchResults s;
     matchStatistics := matchStatistics s;
     isLoading := isLoading s;
     error := error s;
     success := success s;
     hasSearched := hasSearched s;
     isExporting := isExporting s;
     currentPage := currentPage s;
     itemsPerPage := itemsPerPage s |}.

(** The assignment [selectedDifficultyType = v]. *)
Definition set_selectedDifficultyType (v : jsstring) (s : t) : t :=
  {| studentFile := studentFile s;
     difficultyFile := difficultyFile s;
     selectedDifficultyType := v;
     difficultyTypeOptions := difficultyTypeOptions s;
     matchResults := matchResults s;
     matchStatistics := matchStatistics s;
     isLoading := isLoading s;
     error := error s;
     success := success s;
     hasSearched := hasSearched s;
     isExporting := isExporting s;
     currentPage := currentPage s;
     itemsPerPage := itemsPerPage s |}.

(** The assignment [difficultyTypeOptions = v]. *)
Definition set_difficultyTypeOptions (v : list DifficultyTypeOption.t) (s : t) : t :=
  {| studentFile := studentFile s;
     difficultyFile := difficultyFile s;
     selectedDifficultyType := selectedDifficultyType s;
     difficultyTypeOptions := v;
     matchResults := matchResults s;
     matchStatistics := matchStatistics s;
     isLoading := isLoading s;
     error := error s;
     success := success s;
     hasSearched := hasSearched s;
     isExporting := isExporting s;
     currentPage := currentPage s;
     itemsPerPage := itemsPerPage s |}.

(** The assignment [matchResults = v]. *)
Definition set_matchResults (v : list MatchResult) (s : t) : t :=
  {| studentFile := studentFile s;
     difficultyFile := difficultyFile s;
     selectedDifficultyType := selectedDifficultyType s;
     difficultyTypeOptions := difficultyTypeOptions s;
     matchResults := v;
     matchStatistics := matchStatistics s;
     isLoading := isLoading s;
     error := error s;
     success := success s;
     hasSearched := hasSearched s;
     isExporting := isExporting s;
     currentPage := currentPage s;
     itemsPerPage := itemsPerPage s |}.

(** The assignment [matchStatistics = v]. *)
Definition set_matchStatistics (v : option MatchStatistics) (s : t) : t :=
  {| studentFile := studentFile s;
     difficultyFile := difficultyFile s;
     selectedDifficultyType := selectedDifficultyType s;
     difficultyTypeOptions := difficultyTypeOptions s;
     matchResults := matchResults s;
     matchStatistics := v;
     isLoading := isLoading s;
     error := error s;
     success := success s;
     hasSearched := hasSearched s;
     isExporting := isExporting s;
     currentPage := currentPage s;
     itemsPerPage := itemsPerPage s |}.

(** The assignment [isLoading = v]. *)
Definition set_isLoading (v : bool) (s : t) : t :=
  {| studentFile := studentFile s;
     difficultyFile := difficultyFile s;
     selectedDifficultyType := selectedDifficultyType s;
     difficultyTypeOptions := difficultyTypeOptions s;
     matchResults := matchResults s;
     matchStatistics := matchStatistics s;
     isLoading := v;
     error := error s;
     success := success s;
     hasSearched := hasSearched s;
     isExporting := isExporting s;
     currentPage := currentPage s;
     itemsPerPage := itemsPerPage s |}.

(** The assignment [error = v]. *)
Definition set_error (v : jsstring) (s : t) : t :=
  {| studentFile := studentFile s;
     difficultyFile := difficultyFile s;
     selectedDifficultyType := selectedDifficultyType s;
     difficultyTypeOptions := difficultyTypeOptions s;
     matchResults := matchResults s;
     matchStatistics := matchStatistics s;
     isLoading := isLoading s;
     error := v;
     success := success s;
     hasSearched := hasSearched s;
     isExporting := isExporting s;
     currentPage := currentPage s;
     itemsPerPage := itemsPerPage s |}.

(** The assignment [success = v]. *)
Definition set_success (v : jsstring) (s : t) : t :=
  {| studentFile := studentFile s;
     difficultyFile := difficultyFile s;
     selectedDifficultyType := selectedDifficultyType s;
     difficultyTypeOptions := difficultyTypeOptions s;
     matchResults := matchResults s;
     matchStatistics := matchStatistics s;
     isLoading := isLoading s;
     error := error s;
     success := v;
     hasSearched := hasSearched s;
     isExporting := isExporting s;
     currentPage := currentPage s;
     itemsPerPage := itemsPerPage s |}.

(** The assignment [hasSearched = v]. *)
Definition set_hasSearched (v : bool) (s : t) : t :=
  {| studentFile := studentFile s;
     difficultyFile := difficultyFile s;
     selectedDifficultyType := selectedDifficultyType s;
     difficultyTypeOptions := difficultyTypeOptions s;
     matchResults := matchResults s;
     matchStatistics := matchStatistics s;
     isLoading := isLoading s;
     error := error s;
     success := success s;
     hasSearched := v;
     isExporting := isExporting s;
     currentPage := currentPage s;
     itemsPerPage := itemsPerPage s |}.

(** The assignment [isExporting = v]. *)
Definition set_isExporting (v : bool) (s : t) : t :=
  {| studentFile := studentFile s;
     difficultyFile := difficultyFile s;
     selectedDifficultyType := selectedDifficultyType s;
     difficultyTypeOptions := difficultyTypeOptions s;
     matchResults := matchResults s;
     matchStatistics := matchStatistics s;
     isLoading := isLoading s;
     error := error s;
     success := success s;
     hasSearched := hasSearched s;
     isExporting := v;
     currentPage := currentPage s;
     itemsPerPage := itemsPerPage s |}.

(** The assignment [currentPage = v]. *)
Definition set_currentPage (v : Z) (s : t) : t :=
  {| studentFile := studentFile s;
     difficultyFile := difficultyFile s;
     selectedDifficultyType := selectedDifficultyType s;
     difficultyTypeOptions := difficultyTypeOptions s;
     matchResults := matchResults s;
     matchStatistics := matchStatistics s;
     isLoading := isLoading s;
     error := error s;
     success := success s;
     hasSearched := hasSearched s;
     isExporting := isExporting s;
     currentPage := v;
     itemsPerPage := itemsPerPage s |}.

(** The initial values of the [$state] declarations. *)
Definition initial : t :=
  {| studentFile := None;
     difficultyFile := None;
     selectedDifficultyType := [];
     difficultyTypeOptions := [];
     matchResults := [];
     matchStatistics := None;
     isLoading := false;
     error := [];
     success := [];
     hasSearched := false;
     isExporting := false;
     currentPage := 1;
     itemsPerPage := 10 |}.

(** [$derived(studentFile && difficultyFile && selectedDifficultyType)],
    as the condition it is used for. *)
Definition canMatch (s : t) : bool :=
  match studentFile s, difficultyFile s with
  | Some _, Some _ => truthy (selectedDifficultyType s)
  | _, _ => false
  end.

(** [Math.ceil(matchResults.length / itemsPerPage)], for a positive page
    size: the least number of pages that hold all the results. *)
Definition totalPages (s : t) : Z :=
  (Z.of_nat (length (matchResults s)) + itemsPerPage s - 1) `div` itemsPerPage s.

Definition paginatedResults (s : t) : list MatchResult :=
  let start := (currentPage s - 1) * itemsPerPage s in
  let end_ := start + itemsPerPage s in
  slice (matchResults s) start end_.

(** [setError] and [setSuccess] also start a timer; its callback is
    [errorTimeout], respectively [successTimeout], run later. *)
Definition setError (message : jsstring) (s : t) : t :=
  set_success [] (set_error message s).

Definition errorTimeout (s : t) : t := set_error [] s.

Definition setSuccess (message : jsstring) (s : t) : t :=
  set_error [] (set_success message s).

Definition successTimeout (s : t) : t := set_success [] s.

Definition resetPagination (s : t) : t := set_currentPage 1 s.

Definition goToPage (page : Z) (s : t) : t :=
  if (1 <=? page) && (page <=? totalPages s) then set_currentPage page s
  else s.

Definition nextPage (s : t) : t :=
  if currentPage s <? totalPages s then set_currentPage (currentPage s + 1) s
  else s.

Definition prevPage (s : t) : t :=
  if 1 <? currentPage s then set_currentPage (currentPage s - 1) s
  else s.

Definition resetAll (s : t) : t :=
  resetPagination
    (set_isExporting false
    (set_success []
    (set_error []
    (set_hasSearched false
    (set_matchStatistics None
    (set_matchResults []
    (set_selectedDifficultyType []
    (set_difficultyFile None
    (set_studentFile None s))))))))).

(** [loadDifficultyTypeOptions], from the point where the awaited call has
    settled. *)
Definition loadDifficultyTypeOptions
    (outcome : Settled (CommandResult.t (list DifficultyTypeOption.t)))
    (s : t) : t :=
  match outcome with
  | Fulfilled result =>
    match CommandResult.success result, CommandResult.data result with
    | true, Some data => set_difficultyTypeOptions data s
    | _, _ =>
      setError (utf16 "获取困难类型选项失败: "
                  ++ or_else (CommandResult.error result) (utf16 "未知错误")) s
    end
  | Rejected err => setError (utf16 "获取困难类型选项失败: " ++ err) s
  end.

(** The [fileType] argument: ["student" | "difficulty"]. *)
Inductive FileType := student_file | difficulty_file.

(** [validateAndSetFile], from the point where [validateUploadedFile] has
    settled. *)
Definition validateAndSetFile (fileType : FileType)
    (outcome : Settled (CommandResult.t FileInfo.t)) (s : t) : t :=
  match outcome with
  | Fulfilled result =>
    match CommandResult.success result, CommandResult.data result with
    | true, Some data =>
      match fileType with
      | student_file =>
        setSuccess (utf16 "学生文件验证成功") (set_studentFile (Some data) s)
      | difficulty_file =>
        setSuccess (utf16 "困难类型文件验证成功")
          (set_difficultyFile (Some data) s)
      end
    | _, _ =>
      setError (utf16 "文件验证失败: "
                  ++ or_else (CommandResult.error result) (utf16 "未知错误")) s
    end
  | Rejected err => setError (utf16 "文件验证失败: " ++ err) s
  end.

(** [selectStudentFile], from the point where the dialog has settled:
    [dialog] is what [openFileDialog] settled to and [validation] what
    [validateUploadedFile] settles to on the chosen path. *)
Definition selectStudentFile (dialog : Settled (option jsstring))
    (validation : jsstring → Settled (CommandResult.t FileInfo.t))
    (s : t) : t :=
  match dialog with
  | Fulfilled (Some filePath) =>
    if truthy filePath then
      validateAndSetFile student_file (validation filePath) s
    else s
  | Fulfilled None => s
  | Rejected err => setError (utf16 "选择学生文件失败: " ++ err) s
  end.

Definition selectDifficultyFile (dialog : Settled (option jsstring))
    (validation : jsstring → Settled (CommandResult.t FileInfo.t))
    (s : t) : t :=
  match dialog with
  | Fulfilled (Some filePath) =>
    if truthy filePath then
      validateAndSetFile difficulty_file (validation filePath) s
    else s
  | Fulfilled None => s
  | Rejected err => setError (utf16 "选择困难类型文件失败: " ++ err) s
  end.

(** [performMatch] up to its [await]: [None] when it returns at once;
    otherwise the state it leaves and the search it has started, whose
    arguments are read then. A [null] file would make [studentFile!.path]
    throw inside the [try]. *)
Definition performMatch_start (invoke : Backend) (s : t)
  : option (t * Settled SearchResult.t) :=
  if negb (canMatch s) then None
  else
    let s := set_success [] (set_error [] (set_isLoading true s)) in
    Some (s,
          match studentFile s, difficultyFile s with
          | Some studentFile, Some difficultyFile =>
            executeStudentSearch invoke
              (FileInfo.path studentFile) (FileInfo.path difficultyFile)
              (selectedDifficultyType s)
          | _, _ => Rejected (utf16 "TypeError")
          end).

(** [performMatch] from the point where the search has settled, the
    [finally] block included. *)
Definition performMatch_finish (outcome : Settled SearchResult.t) (s : t) : t :=
  set_isLoading false
    match outcome with
    | Fulfilled result =>
      if SearchResult.success result then
        setSuccess
          (utf16 "匹配完成！找到 "
             ++ decimal (N.of_nat (length (SearchResult.matches result)))
             ++ utf16 " 个匹配结果")
          (resetPagination
          (set_hasSearched true
          (set_matchStatistics (Some (SearchResult.statistics result))
          (set_matchResults (SearchResult.matches result) s))))
      else
        set_hasSearched false
          (setError (utf16 "匹配失败: "
                       ++ or_else (SearchResult.error result) (utf16 "未知错误"))
                    s)
    | Rejected err =>
      set_hasSearched false (setError (utf16 "匹配失败: " ++ err) s)
    end.

(** [performMatch] when nothing else touches the state while it waits. *)
Definition performMatch (invoke : Backend) (s : t) : t :=
  match performMatch_start invoke s with
  | None => s
  | Some (s, outcome) => performMatch_finish outcome s
  end.

(** [timestamp.replace(/:/g, "-")] *)
Definition replace_colons (s : jsstring) : jsstring :=
  (λ c, if (c =? 0x3A)%N then 0x2D%N else c) <$> s.

(** The default file name of an export, [now] being what
    [new Date().toISOString()] returns. *)
Definition exportFileName (now : jsstring) (s : t) : jsstring :=
  let timestamp := replace_colons (slice now 0 19) in
  utf16 "学生困难类型匹配结果_" ++ selectedDifficultyType s ++ utf16 "_"
    ++ timestamp ++ utf16 ".xlsx".

(** The path handed to the export command for a chosen save path. *)
Definition exportOutputPath (savePath : jsstring) : jsstring :=
  if endsWith savePath (utf16 ".xlsx") then savePath
  else savePath ++ utf16 ".xlsx".

(** [exportToExcel] up to the save dialog: [inl] when it returns at once,
    [inr] when it goes on to ask for a path. *)
Definition exportToExcel_start (s : t) : t + t :=
  if (length (matchResults s) =? 0)%nat then
    inl (setError (utf16 "没有可导出的数据") s)
  else inr (set_isExporting true s).

(** [exportToExcel] from the point where [saveFileDialog] has settled:
    [inl] when it returns at once, [inr] with the arguments of the export
    command it has started. *)
Definition exportToExcel_saving (dialog : Settled (option jsstring)) (s : t)
  : t + t * (list MatchResult * jsstring) :=
  match dialog with
  | Fulfilled savePath =>
    if negb (from_option truthy false savePath) then
      inl (set_isExporting false (set_isExporting false s))
    else
      inr (s, (matchResults s,
               exportOutputPath (from_option id [] savePath)))
  | Rejected err =>
    inl (set_isExporting false (setError (utf16 "导出失败: " ++ err) s))
  end.

(** [exportToExcel] from the point where the export command has settled,
    the [finally] block included. *)
Definition exportToExcel_finish
    (outcome : Settled (CommandResult.t jsstring)) (s : t) : t :=
  set_isExporting false
    match outcome with
    | Fulfilled result =>
      if CommandResult.success result then
        setSuccess
          (utf16 "成功导出 "
             ++ decimal (N.of_nat (length (matchResults s)))
             ++ utf16 " 条记录到 Excel 文件") s
      else
        setError (utf16 "导出失败: "
                    ++ or_else (CommandResult.error result) (utf16 "未知错误"))
                 s
    | Rejected err => setError (utf16 "导出失败: " ++ err) s
    end.

(** Every way the state changes: one rule per handler, an asynchronous
    handler contributing one rule per stretch of code between two
    [await]s, with whatever the awaited call may settle to. *)
Inductive step (invoke : Backend) : t → t → Prop :=
| step_loadDifficultyTypeOptions s outcome :
    step invoke s (loadDifficultyTypeOptions outcome s)
| step_selectStudentFile s dialog validation :
    step invoke s (selectStudentFile dialog validation s)
| step_selectDifficultyFile s dialog validation :
    step invoke s (selectDifficultyFile dialog validation s)
| step_bind_selectedDifficultyType s value :
    step invoke s (set_selectedDifficultyType value s)
| step_performMatch_start s s' outcome :
    performMatch_start invoke s = Some (s', outcome) →
    step invoke s s'
| step_performMatch_finish s outcome :
    step invoke s (performMatch_finish outcome s)
| step_resetAll s : step invoke s (resetAll s)
| step_goToPage s page : step invoke s (goToPage page s)
| step_nextPage s : step invoke s (nextPage s)
| step_prevPage s : step invoke s (prevPage s)
| step_errorTimeout s : step invoke s (errorTimeout s)
| step_successTimeout s : step invoke s (successTimeout s)
| step_exportToExcel_refused s s' :
    exportToExcel_start s = inl s' → step invoke s s'
| step_exportToExcel_start s s' :
    exportToExcel_start s = inr s' → step invoke s s'
| step_exportToExcel_cancelled s dialog s' :
    exportToExcel_saving dialog s = inl s' → step invoke s s'
| step_exportToExcel_finish s outcome :
    step invoke s (exportToExcel_finish outcome s).

(** The states the component can be in. *)
Inductive reachable (invoke : Backend) : t → Prop :=
| reachable_initial : reachable invoke initial
| reachable_step s s' :
    reachable invoke s → step invoke s s' → reachable invoke s'.

End Component.

(** ** The matching engine *)

(** Modelled from the spec: the engine that answers [invoke] (the backend
    command [find_students_by_difficulty]) is not among the TypeScript
    sources. Spec 4.1: the lookup keyed by identity number built from the
    student table, a later row overwriting an earlier one with the same
    identity number. *)
Definition student_lookup (students : list Student) : gmap jsstring Student :=
  foldl (λ (lookup : gmap jsstring Student) s, <[id_number s := s]> lookup)
        ∅ students.

(** Modelled from the spec: [find_matches] of the absent engine. Spec 4.1:
    filter the difficulty records to those whose difficulty type equals the
    category; for each one look the student up by identity number; emit a
    [MatchResult] when found, drop the record otherwise. The free-form
    source metadata of a record plays no part and is not carried. *)
Definition find_matches (students : list Student)
    (difficulty_records : list DifficultPerson) (category : jsstring)
  : list MatchResult :=
  let filtered :=
    List.filter (λ r, bool_decide (label (difficulty_type r) = category))
                difficulty_records in
  let lookup := student_lookup students in
  omap (λ r, (λ s, {| student := s; difficult_info := r |})
               <$> lookup !! person_id_number r)
       filtered.

Section Engine.
(** Modelled from the spec: reading a table (absent from the sources).
    Spec 4.1 and 7: a malformed or unreadable table is reported as an error
    with a message ([inl]); otherwise the parsed rows ([inr]). *)
Variable read_students : jsstring → jsstring + list Student.
Variable read_difficulty_records : jsstring → jsstring + list DifficultPerson.

(** Modelled from the spec: the boundary operation
    [find_matches(student_path, difficulty_path, category)] of spec 6,
    answering with the tagged result of spec 7. *)
Definition find_matches_command
    (student_path difficulty_path category : jsstring)
  : CommandResult.t (list MatchResult) :=
  match read_students student_path with
  | inl message => CommandResult.mk false None (Some message)
  | inr students =>
    match read_difficulty_records difficulty_path with
    | inl message => CommandResult.mk false None (Some message)
    | inr difficulty_records =>
      CommandResult.mk true
        (Some (find_matches students difficulty_records category)) None
    end
  end.

End Engine.

(** ** Vocabulary of the statements *)

(** Empty or made of white space only. *)
Definition blank (s : jsstring) : bool := forallb isWhiteSpace s.

(** [toLowerCase] on ASCII-only strings: A-Z go to a-z. Used to run the
    functions on concrete ASCII inputs. *)
Definition toLowerCaseASCII (s : jsstring) : jsstring :=
  (λ c, if ((0x41 <=? c) && (c <=? 0x5A))%N then (c + 0x20)%N else c) <$> s.

(** [t] occurs in [s] as a contiguous run of code units. *)
Definition contains (s t : jsstring) : Prop :=
  ∃ before after, s = before ++ t ++ after.

(** The results filed under a given key, in their order. *)
Definition with_key {Result} (key : Result → jsstring) (k : jsstring)
    (matches : list Result) : list Result :=
  List.filter (λ m, bool_decide (key m = k)) matches.

(** The results that carry a given difficulty type, in their order. *)
Definition with_type {Result} `{DifficultyTyped Result} (t : jsstring)
    (results : list Result) : list Result :=
  with_key difficulty_type_of t results.

(** How many results carry a given difficulty type. *)
Definition count_type {Result} `{DifficultyTyped Result} (t : jsstring)
    (results : list Result) : nat :=
  length (with_type t results).

(** The difficulty types that occur among the results. *)
Definition types_of {Result} `{DifficultyTyped Result}
    (results : list Result) : list jsstring :=
  difficulty_type_of <$> results.


(** The number a property of the counts object stands for, [0] for a
    missing property and for one that is not a number. *)
Definition as_count (value : option CountValue) : nat :=
  match value with
  | Some (Number n) => n
  | _ => 0%nat
  end.

(** All the numbers of a counts object, added up. *)
Definition counts_total (counts : gmap jsstring CountValue) : nat :=
  map_fold (λ _ value total, (as_count (Some value) + total)%nat) 0%nat counts.

(** What the counts object holds under a name that [n] results carry. *)
Definition count_entry (type : jsstring) (n : nat) : option CountValue :=
  match n with
  | O => None
  | S _ =>
    if bool_decide (type ∈ objectPrototypeKeys) then
      if bool_decide (type = utf16 "__proto__") then None else Some (Text n)
    else Some (Number n)
  end.

(** The loop shared by the groupings. *)
Definition group_by_key {Result} (key : Result → jsstring)
    (matches : list Result) : Completion (gmap jsstring (list Result)) :=
  forEach (λ (grouped : gmap jsstring (list Result)) match_,
             let k := key match_ in
             let grouped :=
               if missing grouped k then <[k := []]> grouped else grouped in
             push grouped k match_)
          ∅ matches.

(** ** Sample data *)

Definition student_A : Student :=
  {| name := utf16 "A"; id_number := utf16 "123456789012345678";
     student_id := Some (utf16 "S001"); class := Some (utf16 "Class 3B");
     grade := None; school := None |}.

Definition student_B : Student :=
  {| name := utf16 "Bao"; id_number := utf16 "110101200001011234";
     student_id := None; class := Some [];
     grade := None; school := None |}.

Definition record_A : DifficultPerson :=
  {| person_id_number := utf16 "123456789012345678";
     difficulty_type := RuralSubsistence |}.

Definition record_B : DifficultPerson :=
  {| person_id_number := utf16 "110101200001011234";
     difficulty_type := UrbanSubsistence |}.

Definition record_orphan : DifficultPerson :=
  {| person_id_number := utf16 "000000000000000000";
     difficulty_type := RuralSubsistence |}.

Definition match_A : MatchResult :=
  {| student := student_A; difficult_info := record_A |}.

Definition match_B : MatchResult :=
  {| student := student_B; difficult_info := record_B |}.


Definition statistics_A : MatchStatistics :=
  {| total_students := 1; total_matches := 1;
     difficulty_type_counts := {[ RuralSubsistence := 1%nat ]} |}.

(** A backend whose match command reports a failure while its statistics
    command succeeds. *)
Definition backend_match_fails : Backend :=
  {| find_students_by_difficulty _ _ _ :=
       Fulfilled (CommandResult.mk false None (Some (utf16 "cannot read sheet")));
     get_students_match_statistics _ _ _ :=
       Fulfilled (CommandResult.mk true (Some statistics_A) None);
     race := FirstWins |}.

(** A backend whose match command succeeds while its statistics command
    reports a failure. *)
Definition backend_statistics_fail : Backend :=
  {| find_students_by_difficulty _ _ _ :=
       Fulfilled (CommandResult.mk true (Some [match_A]) None);
     get_students_match_statistics _ _ _ :=
       Fulfilled (CommandResult.mk false None (Some (utf16 "no statistics")));
     race := FirstWins |}.

(** A backend whose statistics command throws. *)
Definition backend_statistics_throw : Backend :=
  {| find_students_by_difficulty _ _ _ :=
       Fulfilled (CommandResult.mk true (Some [match_A]) None);
     get_students_match_statistics _ _ _ := Rejected (utf16 "ipc closed");
     race := SecondWins |}.

(** The key [groupMatchesBySchool] files a result under. *)
Definition school_key (m : MatchResult) : jsstring :=
  or_else (school (student m)) (utf16 "未知学校").

(** The key [groupMatchesByGrade] files a result under. *)
Definition grade_key (m : MatchResult) : jsstring :=
  or_else (grade (student m)) (utf16 "未知年级").

Definition student_C : Student :=
  {| name := utf16 "Chen"; id_number := utf16 "110101200002022345";
     student_id := None; class := None;
     grade := Some (utf16 "toString"); school := Some (utf16 "constructor") |}.

Definition student_D : Student :=
  {| name := utf16 "Ding"; id_number := utf16 "110101200003033456";
     student_id := None; class := None;
     grade := Some (utf16 "G7"); school := Some (utf16 "No.1 School") |}.

Definition match_C : MatchResult :=
  {| student := student_C; difficult_info := record_B |}.

Definition match_D : MatchResult :=
  {| student := student_D; difficult_info := record_A |}.

(** The page number lies between 1 and the number of pages (1 when there
    is no page at all). *)
Definition page_in_range (s : Component.t) : Prop :=
  1 ≤ Component.currentPage s
  ∧ Component.currentPage s ≤ Z.max 1 (Component.totalPages s).

(** What the table shows when the page number is [page]. *)
Definition page_shown (page : Z) (s : Component.t) : list MatchResult :=
  Component.paginatedResults (Component.set_currentPage page s).

(** What holds of the component in every state it can be in. *)
Definition component_invariant (s : Component.t) : Prop :=
  page_in_range s
  ∧ Component.itemsPerPage s = 10
  ∧ (Component.error s = [] ∨ Component.success s = [])
  ∧ (Component.hasSearched s = true → is_Some (Component.matchStatistics s)).

Definition file_students : FileInfo.t :=
  {| FileInfo.name := utf16 "students.xlsx";
     FileInfo.path := utf16 "/data/students.xlsx";
     FileInfo.size := 20480;
     FileInfo.extension := utf16 "xlsx" |}.

Definition file_difficulty : FileInfo.t :=
  {| FileInfo.name := utf16 "difficulty.xls";
     FileInfo.path := utf16 "/data/difficulty.xls";
     FileInfo.size := 1536;
     FileInfo.extension := utf16 "xls" |}.

(** The component once the student file has been chosen and accepted. *)
Definition state_student_chosen : Component.t :=
  Component.selectStudentFile
    (Fulfilled (Some (utf16 "/data/students.xlsx")))
    (λ _, Fulfilled (CommandResult.mk true (Some file_students) None))
    Component.initial.

(** The component once both files and a difficulty type are chosen. *)
Definition state_ready : Component.t :=
  Component.set_selectedDifficultyType (label RuralSubsistence)
    (Component.selectDifficultyFile
       (Fulfilled (Some (utf16 "/data/difficulty.xls")))
       (λ _, Fulfilled (CommandResult.mk true (Some file_difficulty) None))
       state_student_chosen).

(** A backend whose two commands both succeed. *)
Definition backend_both_succeed : Backend :=
  {| find_students_by_difficulty _ _ _ :=
       Fulfilled (CommandResult.mk true (Some [match_A]) None);
     get_students_match_statistics _ _ _ :=
       Fulfilled (CommandResult.mk true (Some statistics_A) None);
     race := FirstWins |}.

(** The component after a successful search that found 23 results. *)
Definition state_searched : Component.t :=
  Component.performMatch_finish
    (Fulfilled
       {| SearchResult.matches := replicate 23 match_A;
          SearchResult.statistics := statistics_A;
          SearchResult.success := true;
          SearchResult.error := None |})
    state_ready.

(* ===================================================================== *)
(** * Theorems *)
(* ===================================================================== *)

Example utf16_rural :
  utf16 "农村低保" = [0x519C; 0x6751; 0x4F4E; 0x4FDD]%N.
Proof. reflexivity. Qed.

(** Distinct members of [DifficultyType] are distinct strings. *)
Lemma label_inj t1 t2 : label t1 = label t2 → t1 = t2.
Proof. destruct t1, t2; intros H; try reflexivity; vm_compute in H; discriminate. Qed.


Example mask18 :
  maskIdNumber (utf16 "123456789012345678") = utf16 "123****678".
Proof. vm_compute. reflexivity. Qed.

(** ** Strings *)

Lemma substring_prefix (s : jsstring) (n : nat) :
  (n ≤ length s)%nat → substring s 0 (Some (Z.of_nat n)) = take n s.
Proof.
  intros Hn. unfold substring. simpl.
  replace (Z.min (Z.max 0 0) (Z.of_nat (length s))) with 0 by lia.
  replace (Z.min (Z.max (Z.of_nat n) 0) (Z.of_nat (length s)))
    with (Z.of_nat n) by lia.
  replace (Z.min 0 (Z.of_nat n)) with 0 by lia.
  replace (Z.max 0 (Z.of_nat n)) with (Z.of_nat n) by lia.
  rewrite Z.sub_0_r, Nat2Z.id. reflexivity.
Qed.

Lemma substring_suffix (s : jsstring) (n : nat) :
  (n ≤ length s)%nat →
  substring s (Z.of_nat (length s) - Z.of_nat n) None = drop (length s - n) s.
Proof.
  intros Hn. unfold substring. simpl.
  set (len := Z.of_nat (length s)).
  replace (Z.min (Z.max (len - Z.of_nat n) 0) len)
    with (len - Z.of_nat n) by lia.
  replace (Z.min (len - Z.of_nat n) len) with (len - Z.of_nat n) by lia.
  replace (Z.max (len - Z.of_nat n) len) with len by lia.
  replace (Z.to_nat (len - Z.of_nat n)) with (length s - n)%nat by lia.
  replace (Z.to_nat (len - (len - Z.of_nat n))) with n by lia.
  apply take_ge. rewrite length_drop. lia.
Qed.

(** C1. [maskIdNumber] on a string of at least 6 code units keeps its first
    three and its last three code units and puts the fixed mask "****"
    between them (10 code units in all), so "123456789012345678" is
    rendered "123****678"; on a shorter string it returns the placeholder
    "****". The function builds a new string: its argument is a value and
    is not changed. *)
Theorem maskIdNumber_masks (s : jsstring) :
  ((6 ≤ length s)%nat →
     maskIdNumber s = take 3 s ++ utf16 "****" ++ drop (length s - 3) s
     ∧ length (maskIdNumber s) = 10%nat)
  ∧ ((length s < 6)%nat → maskIdNumber s = utf16 "****")
  ∧ maskIdNumber (utf16 "123456789012345678") = utf16 "123****678".
Proof.
  split; [|split].
  - intros Hlen. unfold maskIdNumber.
    destruct (Z.leb_spec 6 (Z.of_nat (length s))) as [_|]; [|lia].
    change (substring s 0 (Some 3))
      with (substring s 0 (Some (Z.of_nat 3))).
    change (Z.of_nat (length s) - 3)
      with (Z.of_nat (length s) - Z.of_nat 3).
    rewrite substring_prefix, substring_suffix by lia.
    split; [reflexivity|].
    rewrite !length_app, length_take, length_drop.
    change (length (utf16 "****")) with 4%nat. lia.
  - intros Hlen. unfold maskIdNumber.
    destruct (Z.leb_spec 6 (Z.of_nat (length s))); [lia|reflexivity].
  - vm_compute. reflexivity.
Qed.

Lemma maskIdNumber_masks_witness :
  maskIdNumber (utf16 "110101200001011234") = utf16 "110****234"
  ∧ maskIdNumber (utf16 "12345") = utf16 "****".
Proof.
  split.
  - destruct (maskIdNumber_masks (utf16 "110101200001011234")) as [H _].
    destruct H as [H _]; [vm_compute; lia|].
    rewrite H. vm_compute. reflexivity.
  - destruct (maskIdNumber_masks (utf16 "12345")) as (_ & H & _).
    apply H. vm_compute. lia.
Defined.

Lemma blank_spec (s : jsstring) :
  blank s = true ↔ ∀ c, c ∈ s → isWhiteSpace c = true.
Proof.
  unfold blank. rewrite forallb_forall.
  split; intros H c Hc; apply H; by apply list_elem_of_In.
Qed.

Lemma trimStart_nil (s : jsstring) : trimStart s = [] ↔ blank s = true.
Proof.
  induction s as [|c s IH]; simpl; [done|].
  destruct (isWhiteSpace c); simpl; [exact IH|].
  split; discriminate.
Qed.

Lemma trimStart_head (s : jsstring) c s' :
  trimStart s = c :: s' → isWhiteSpace c = false.
Proof.
  induction s as [|d s IH]; simpl; [discriminate|].
  destruct (isWhiteSpace d) eqn:Hd; [exact IH|].
  intros [= <- _]. exact Hd.
Qed.

Lemma truthy_false (s : jsstring) : truthy s = false ↔ s = [].
Proof. destruct s; simpl; split; congruence. Qed.

(** [!s.trim()] holds exactly for the blank strings. *)
Lemma trim_falsy (s : jsstring) : negb (truthy (trim s)) = true ↔ blank s = true.
Proof.
  rewrite negb_true_iff, truthy_false. unfold trim, trimEnd. split.
  - intros H. apply (f_equal reverse) in H.
    rewrite reverse_involutive, reverse_nil in H.
    apply trimStart_nil in H. pose proof (proj1 (blank_spec _) H) as Hws.
    destruct (trimStart s) as [|c s'] eqn:Hs; [by apply trimStart_nil|].
    apply trimStart_head in Hs.
    rewrite (Hws c) in Hs; [discriminate|].
    rewrite elem_of_reverse. left.
  - intros H. apply trimStart_nil in H. by rewrite H.
Qed.

Lemma trim_truthy (s : jsstring) : negb (truthy (trim s)) = false ↔ blank s = false.
Proof.
  pose proof (trim_falsy s) as H.
  destruct (negb (truthy (trim s))), (blank s); intuition congruence.
Qed.

(** C6. [validateSearchParameters] answers [valid = false] exactly when one
    of the student file path, the difficulty file path and the difficulty
    type is empty or white space only; a refusal carries a non-empty
    message, the one of the first blank argument in that order; otherwise
    the answer is [valid = true] with no message. The function is pure: it
    takes no backend and calls none. *)
Theorem validateSearchParameters_checks
    (studentFilePath difficultyFilePath difficultyType : jsstring) :
  (Validation.valid
     (validateSearchParameters studentFilePath difficultyFilePath difficultyType)
   = negb (blank studentFilePath || blank difficultyFilePath
           || blank difficultyType))
  ∧ (Validation.error
       (validateSearchParameters studentFilePath difficultyFilePath difficultyType)
     = if blank studentFilePath then Some (utf16 "请选择学生信息表文件")
       else if blank difficultyFilePath then Some (utf16 "请选择困难类型数据表文件")
       else if blank difficultyType then Some (utf16 "请选择困难类型")
       else None)
  ∧ (Validation.valid
       (validateSearchParameters studentFilePath difficultyFilePath difficultyType)
     = false →
     ∃ message,
       Validation.error
         (validateSearchParameters studentFilePath difficultyFilePath
            difficultyType) = Some message
       ∧ message ≠ [])
  ∧ (Validation.valid
       (validateSearchParameters studentFilePath difficultyFilePath difficultyType)
     = true →
     Validation.error
       (validateSearchParameters studentFilePath difficultyFilePath difficultyType)
     = None).
Proof.
  unfold validateSearchParameters.
  destruct (blank studentFilePath) eqn:Ha.
  { apply trim_falsy in Ha. rewrite Ha. simpl.
    repeat split; try discriminate. intros _. eexists. split; [reflexivity|].
    vm_compute. discriminate. }
  apply trim_truthy in Ha. rewrite Ha.
  destruct (blank difficultyFilePath) eqn:Hb.
  { apply trim_falsy in Hb. rewrite Hb. simpl.
    repeat split; try discriminate. intros _. eexists. split; [reflexivity|].
    vm_compute. discriminate. }
  apply trim_truthy in Hb. rewrite Hb.
  destruct (blank difficultyType) eqn:Hc.
  { apply trim_falsy in Hc. rewrite Hc. simpl.
    repeat split; try discriminate. intros _. eexists. split; [reflexivity|].
    vm_compute. discriminate. }
  apply trim_truthy in Hc. rewrite Hc. simpl.
  repeat split; discriminate.
Qed.

Lemma validateSearchParameters_checks_witness :
  (∃ message,
     Validation.error
       (validateSearchParameters (utf16 "students.xlsx") (utf16 "  ") [])
     = Some message ∧ message ≠ [])
  ∧ Validation.error
      (validateSearchParameters (utf16 "students.xlsx") (utf16 "d.xls")
         (label RuralSubsistence)) = None.
Proof.
  split.
  - apply (validateSearchParameters_checks (utf16 "students.xlsx") (utf16 "  ") []).
    vm_compute. reflexivity.
  - apply (validateSearchParameters_checks
             (utf16 "students.xlsx") (utf16 "d.xls") (label RuralSubsistence)).
    vm_compute. reflexivity.
Defined.

Lemma split_cons_ne sep c (s : jsstring) :
  c ≠ sep →
  split sep (c :: s) = match split sep s with
                       | piece :: pieces => (c :: piece) :: pieces
                       | [] => [[c]]
                       end.
Proof. intros Hc. simpl. by rewrite (proj2 (N.eqb_neq c sep) Hc). Qed.

Lemma split_not_nil sep (s : jsstring) : split sep s ≠ [].
Proof.
  induction s as [|c s IH]; simpl; [done|].
  destruct (c =? sep)%N; [done|]. by destruct (split sep s).
Qed.

(** Without the separator there is one piece, the string itself. *)
Lemma split_without sep (s : jsstring) : sep ∉ s → split sep s = [s].
Proof.
  induction s as [|c s IH]; [done|].
  rewrite not_elem_of_cons. intros [Hne Hs].
  rewrite split_cons_ne by done. by rewrite IH.
Qed.

(** The pieces after a separator are those of the text that follows it. *)
Lemma split_at_sep sep (pre post : jsstring) :
  split sep (pre ++ sep :: post) = split sep pre ++ split sep post.
Proof.
  induction pre as [|c pre IH].
  - simpl. by rewrite N.eqb_refl.
  - destruct (decide (c = sep)) as [->|Hne].
    + simpl. rewrite N.eqb_refl. by rewrite IH.
    + rewrite <- app_comm_cons, !split_cons_ne, IH by done.
      pose proof (split_not_nil sep pre).
      by destruct (split sep pre).
Qed.

Lemma pop_split_after_last sep (pre post : jsstring) :
  sep ∉ post → pop (split sep (pre ++ sep :: post)) = Some post.
Proof.
  intros Hpost. unfold pop.
  by rewrite split_at_sep, (split_without sep post), last_snoc.
Qed.

Lemma pop_split_without sep (s : jsstring) :
  sep ∉ s → pop (split sep s) = Some s.
Proof. intros Hs. unfold pop. by rewrite split_without. Qed.

Section UploadFacts.
Variable toLowerCase : jsstring → jsstring.

Lemma isExcelFile_extension fileName extension :
  pop (split 0x2E (toLowerCase fileName)) = Some extension →
  isExcelFile toLowerCase fileName = true
  ↔ extension = utf16 "xlsx" ∨ extension = utf16 "xls".
Proof.
  intros Hext. unfold isExcelFile. rewrite Hext, orb_true_iff.
  rewrite !bool_decide_eq_true. split; intros [H|H]; simplify_eq; auto.
Qed.

(** C8. [isExcelFile] answers [true] exactly when, in the lower-cased file
    name, what follows the last '.' is "xlsx" or "xls"; when the lower-cased
    name has no '.', the whole of it is what is compared, so a file named
    just "xls" (or "XLSX") is accepted. *)
Theorem isExcelFile_last_extension (fileName : jsstring) :
  (∀ stem extension,
     toLowerCase fileName = stem ++ 0x2E%N :: extension →
     0x2E%N ∉ extension →
     isExcelFile toLowerCase fileName = true
     ↔ extension = utf16 "xlsx" ∨ extension = utf16 "xls")
  ∧ (0x2E%N ∉ toLowerCase fileName →
     isExcelFile toLowerCase fileName = true
     ↔ toLowerCase fileName = utf16 "xlsx" ∨ toLowerCase fileName = utf16 "xls")
  ∧ (toLowerCase fileName = utf16 "xlsx" ∨ toLowerCase fileName = utf16 "xls" →
     isExcelFile toLowerCase fileName = true).
Proof.
  assert (0x2E%N ∉ toLowerCase fileName →
     isExcelFile toLowerCase fileName = true
     ↔ toLowerCase fileName = utf16 "xlsx" ∨ toLowerCase fileName = utf16 "xls")
    as Hwhole.
  { intros Hnodot. apply isExcelFile_extension. by apply pop_split_without. }
  split; [|split; [exact Hwhole|]].
  - intros stem extension Hname Hlast.
    apply isExcelFile_extension. rewrite Hname.
    by apply pop_split_after_last.
  - intros Hname. apply Hwhole; [|exact Hname].
    destruct Hname as [-> | ->];
      apply (bool_decide_unpack _); vm_compute; exact I.
Qed.

End UploadFacts.

Lemma isExcelFile_last_extension_witness :
  isExcelFile toLowerCaseASCII (utf16 "xls") = true
  ∧ isExcelFile toLowerCaseASCII (utf16 "Roster.2024.XLSX") = true
  ∧ isExcelFile toLowerCaseASCII (utf16 "roster.xlsx.bak") ≠ true.
Proof.
  split; [|split].
  - apply (isExcelFile_last_extension toLowerCaseASCII (utf16 "xls")).
    right. vm_compute. reflexivity.
  - apply (proj1 (isExcelFile_last_extension toLowerCaseASCII
                    (utf16 "Roster.2024.XLSX"))
             (utf16 "roster.2024") (utf16 "xlsx")).
    + vm_compute. reflexivity.
    + apply (bool_decide_unpack _). vm_compute. exact I.
    + left. reflexivity.
  - intros H.
    apply (proj1 (isExcelFile_last_extension toLowerCaseASCII
                    (utf16 "roster.xlsx.bak"))
             (utf16 "roster.xlsx") (utf16 "bak")) in H.
    + vm_compute in H. destruct H; discriminate.
    + vm_compute. reflexivity.
    + apply (bool_decide_unpack _). vm_compute. exact I.
Defined.

(** ** Searching *)

Lemma startsWith_spec (t s : jsstring) :
  startsWith t s = true ↔ ∃ after, s = t ++ after.
Proof.
  revert s. induction t as [|a t IH]; intros s; simpl.
  - split; eauto.
  - destruct s as [|b s].
    + split; [discriminate|]. by intros [? ?].
    + rewrite andb_true_iff, N.eqb_eq, IH. split.
      * intros [-> [after ->]]. eauto.
      * intros [after [= -> ->]]. eauto.
Qed.

(** [includes] decides containment. *)
Lemma includes_spec (s t : jsstring) : includes s t = true ↔ contains s t.
Proof.
  unfold contains. induction s as [|c s IH].
  - simpl. rewrite orb_false_r, startsWith_spec. split.
    + intros [after H]. by exists [], after.
    + intros (before & after & H). destruct before; [|done]. eauto.
  - cbn [includes]. rewrite orb_true_iff, IH, startsWith_spec. split.
    + intros [[after H]|(before & after & H)].
      * by exists [], after.
      * exists (c :: before), after. by rewrite H.
    + intros (before & after & H). destruct before as [|d before].
      * left. eauto.
      * right. injection H as _ H. eauto.
Qed.

Lemma filter_sublist {A} (keep : A → bool) (l : list A) :
  List.filter keep l `sublist_of` l.
Proof.
  induction l as [|x l IH]; simpl; [constructor|].
  destruct (keep x); by constructor.
Qed.

Lemma elem_of_filter_bool {A} (keep : A → bool) (l : list A) x :
  x ∈ List.filter keep l ↔ x ∈ l ∧ keep x = true.
Proof. by rewrite !list_elem_of_In, filter_In. Qed.

Section SearchFacts.
Variable toLowerCase : jsstring → jsstring.

Lemma optional_includes_spec field term :
  optional_includes toLowerCase field term = true
  ↔ ∃ s, field = Some s ∧ s ≠ [] ∧ contains (toLowerCase s) term.
Proof.
  destruct field as [s|]; simpl.
  - rewrite andb_true_iff, includes_spec. destruct s as [|c s]; simpl.
    + split; [by intros [? _]|]. by intros (? & [= <-] & ? & _).
    + split; [intros [_ H]; eauto|]. by intros (? & [= <-] & _ & H).
  - split; [discriminate|]. by intros (? & ? & _).
Qed.

(** C10. [searchInMatches] hands back the list it was given when the search
    term is empty or white space only. Otherwise, with [term] the
    lower-cased and trimmed search term, the answer is a subsequence of the
    list, and a result is in it exactly when it is in the list and [term]
    occurs in the lower-cased student name, or in the identity number as it
    stands, or in the lower-cased student number when there is a non-empty
    one, or in the lower-cased class when there is a non-empty one. The
    results are the very elements of the input. *)
Theorem searchInMatches_filters
    (matches : list MatchResult) (searchTerm : jsstring) :
  (blank searchTerm = true →
     searchInMatches toLowerCase matches searchTerm = matches)
  ∧ (blank searchTerm = false →
     searchInMatches toLowerCase matches searchTerm `sublist_of` matches
     ∧ ∀ m,
         m ∈ searchInMatches toLowerCase matches searchTerm
         ↔ m ∈ matches
           ∧ (contains (toLowerCase (name (student m)))
                       (trim (toLowerCase searchTerm))
              ∨ contains (id_number (student m))
                         (trim (toLowerCase searchTerm))
              ∨ (∃ s, student_id (student m) = Some s ∧ s ≠ []
                      ∧ contains (toLowerCase s)
                                 (trim (toLowerCase searchTerm)))
              ∨ (∃ s, class (student m) = Some s ∧ s ≠ []
                      ∧ contains (toLowerCase s)
                                 (trim (toLowerCase searchTerm))))).
Proof.
  unfold searchInMatches. split.
  - intros Hblank. apply trim_falsy in Hblank. by rewrite Hblank.
  - intros Hblank. apply trim_truthy in Hblank. rewrite Hblank.
    split; [apply filter_sublist|].
    intros m. rewrite elem_of_filter_bool. unfold matchesTerm.
    rewrite !orb_true_iff, !includes_spec, !optional_includes_spec.
    tauto.
Qed.

End SearchFacts.

Lemma searchInMatches_filters_witness :
  searchInMatches toLowerCaseASCII [match_A; match_B] (utf16 "  ")
    = [match_A; match_B]
  ∧ match_A ∈ searchInMatches toLowerCaseASCII [match_A; match_B]
                (utf16 " CLASS 3 ").
Proof.
  split.
  - apply (searchInMatches_filters toLowerCaseASCII). vm_compute. reflexivity.
  - apply (searchInMatches_filters toLowerCaseASCII [match_A; match_B]
             (utf16 " CLASS 3 ")).
    + vm_compute. reflexivity.
    + split; [left|]. right. right. right.
      exists (utf16 "Class 3B"). split; [reflexivity|]. split; [discriminate|].
      exists [], (utf16 "b"). vm_compute. reflexivity.
Defined.

(** ** Summaries and groupings *)

Lemma proto_inherited : utf16 "__proto__" ∈ objectPrototypeKeys.
Proof. apply (bool_decide_unpack _). vm_compute. exact I. Qed.


Section GroupByKey.
Context {Result : Type} (key : Result → jsstring).

Lemma with_key_snoc k matches m :
  with_key key k (matches ++ [m])
  = with_key key k matches ++ (if decide (key m = k) then [m] else []).
Proof.
  unfold with_key. rewrite List.filter_app. simpl.
  unfold bool_decide. by destruct (decide_rel _ _ _); case_decide.
Qed.

Lemma elem_of_with_key k matches m :
  m ∈ with_key key k matches ↔ m ∈ matches ∧ key m = k.
Proof.
  unfold with_key. by rewrite elem_of_filter_bool, bool_decide_eq_true.
Qed.

(** One round of the loop on a key that is not inherited. *)
Lemma group_by_key_round (grouped : gmap jsstring (list Result)) m :
  key m ∉ objectPrototypeKeys →
  push (if missing grouped (key m) then <[key m := []]> grouped else grouped)
       (key m) m
  = Returns (<[key m := default [] (grouped !! key m) ++ [m]]> grouped).
Proof.
  intros Hsafe. unfold missing, push, get.
  destruct (grouped !! key m) as [group|] eqn:Hk; simpl.
  - by rewrite Hk.
  - rewrite bool_decide_eq_false_2 by done.
    by rewrite lookup_insert_eq, insert_insert_eq.
Qed.

(** One round of the loop on an inherited key that is not an own key. *)
Lemma group_by_key_round_inherited
    (grouped : gmap jsstring (list Result)) m :
  key m ∈ objectPrototypeKeys → grouped !! key m = None →
  push (if missing grouped (key m) then <[key m := []]> grouped else grouped)
       (key m) m
  = ThrowsTypeError.
Proof.
  intros Hinherited Hk. unfold missing, push, get.
  rewrite Hk, bool_decide_eq_true_2 by done. simpl.
  rewrite ?Hk, ?bool_decide_eq_true_2 by done. done.
Qed.

Lemma group_by_key_snoc matches m :
  group_by_key key (matches ++ [m])
  = and_then (group_by_key key matches)
      (λ grouped,
         push (if missing grouped (key m) then <[key m := []]> grouped
               else grouped) (key m) m).
Proof. unfold group_by_key, forEach. by rewrite foldl_snoc. Qed.

(** When no key is inherited the loop ends normally, and the group under
    a key is the list of the results with that key. *)
Lemma group_by_key_safe matches :
  (∀ m, m ∈ matches → key m ∉ objectPrototypeKeys) →
  ∃ grouped,
    group_by_key key matches = Returns grouped
    ∧ ∀ k, grouped !! k = match with_key key k matches with
                          | [] => None
                          | group => Some group
                          end.
Proof.
  induction matches as [|m matches IH] using rev_ind; intros Hsafe.
  - exists ∅. split; [done|]. intros k. apply lookup_empty.
  - destruct IH as (grouped & Hloop & Hgroups).
    { intros m' Hm'. apply Hsafe, elem_of_app. by left. }
    eexists. rewrite group_by_key_snoc, Hloop. simpl. split.
    + apply group_by_key_round, Hsafe, elem_of_app. right. left.
    + intros k. rewrite lookup_insert, with_key_snoc. case_decide as Hk.
      * subst k. rewrite Hgroups. by destruct (with_key key _ matches).
      * by rewrite Hgroups, app_nil_r.
Qed.

(** While the loop runs, no inherited key becomes an own key. *)
Lemma group_by_key_own_keys matches grouped k :
  group_by_key key matches = Returns grouped →
  is_Some (grouped !! k) → k ∉ objectPrototypeKeys.
Proof.
  revert grouped k. induction matches as [|m matches IH] using rev_ind;
    intros grouped k.
  - intros [= <-]. rewrite lookup_empty. by intros [? ?].
  - rewrite group_by_key_snoc.
    destruct (group_by_key key matches) as [grouped'|]; simpl; [|done].
    destruct (decide (key m ∈ objectPrototypeKeys)) as [Hinh|Hsafe].
    + destruct (grouped' !! key m) eqn:Hk.
      * destruct (IH grouped' (key m) eq_refl); [by eauto|done].
      * by rewrite group_by_key_round_inherited.
    + rewrite group_by_key_round by done. intros [= <-].
      rewrite lookup_insert. case_decide; [by subst|]. by apply (IH grouped').
Qed.

(** The loop throws exactly when some key is inherited. *)
Lemma group_by_key_throws matches :
  group_by_key key matches = ThrowsTypeError
  ↔ ∃ m, m ∈ matches ∧ key m ∈ objectPrototypeKeys.
Proof.
  split.
  - intros Hthrow.
    destruct (decide (Exists (λ m, key m ∈ objectPrototypeKeys) matches))
      as [Hex|Hall].
    + apply Exists_exists in Hex. exact Hex.
    + apply not_Exists_Forall in Hall; [|apply _].
      destruct (group_by_key_safe matches) as (grouped & Hloop & _).
      { intros m Hm. by apply (proj1 (Forall_forall _ _) Hall). }
      congruence.
  - induction matches as [|m matches IH] using rev_ind.
    + by intros (m & Hm%not_elem_of_nil & _).
    + intros (m' & Hm' & Hinh). rewrite group_by_key_snoc.
      destruct (group_by_key key matches) as [grouped|] eqn:Hloop;
        simpl; [|done].
      apply elem_of_app in Hm' as [Hm'|Hm'%list_elem_of_singleton].
      * assert (Returns grouped = ThrowsTypeError) by (apply IH; eauto).
        done.
      * subst m'. apply group_by_key_round_inherited; [done|].
        destruct (grouped !! key m) eqn:Hk; [|done].
        destruct (group_by_key_own_keys matches grouped (key m)); eauto.
Qed.

End GroupByKey.

Section ByDifficultyType.
Context {Result : Type} `{DifficultyTyped Result}.

Lemma elem_of_with_type t (results : list Result) r :
  r ∈ with_type t results ↔ r ∈ results ∧ difficulty_type_of r = t.
Proof. apply elem_of_with_key. Qed.

Lemma with_type_nil t (results : list Result) :
  with_type t results = [] ↔ t ∉ types_of results.
Proof.
  unfold types_of. rewrite list_elem_of_fmap. split.
  - intros Hnil (r & -> & Hr).
    assert (r ∈ with_type (difficulty_type_of r) results) as Hin
      by by apply elem_of_with_type.
    rewrite Hnil in Hin. by apply not_elem_of_nil in Hin.
  - intros Hnot. destruct (with_type t results) as [|r l] eqn:Hw; [done|].
    assert (r ∈ with_type t results) as Hin by (rewrite Hw; left).
    apply elem_of_with_type in Hin as [Hin <-]. destruct Hnot. eauto.
Qed.


Lemma count_type_snoc t (results : list Result) r :
  count_type t (results ++ [r])
  = (count_type t results
     + (if decide (difficulty_type_of r = t) then 1 else 0))%nat.
Proof.
  unfold count_type, with_type. rewrite with_key_snoc, length_app.
  by case_decide.
Qed.

(** One round of the [forEach] in [generateMatchSummary] leaves the other
    properties alone. *)
Lemma count_round_other (counts : gmap jsstring CountValue) type t :
  type ≠ t →
  assign_count counts type (or_zero_plus_one (read_count counts type)) !! t
  = counts !! t.
Proof.
  intros Hne. unfold assign_count. case_bool_decide; [done|].
  by rewrite lookup_insert_ne.
Qed.

(** One round of the [forEach] in [generateMatchSummary] on a name that
    [n] results already carry. *)
Lemma count_round_same (counts : gmap jsstring CountValue) type n :
  counts !! type = count_entry type n →
  assign_count counts type (or_zero_plus_one (read_count counts type)) !! type
  = count_entry type (S n).
Proof.
  unfold assign_count, read_count, count_entry.
  destruct (bool_decide (type ∈ objectPrototypeKeys)) eqn:Hinherited,
    (bool_decide (type = utf16 "__proto__")) eqn:Hproto; intros Hentry.
  - rewrite Hentry. by destruct n.
  - rewrite lookup_insert_eq, Hentry. destruct n; simpl; do 2 f_equal; lia.
  - apply bool_decide_eq_true in Hproto. subst type.
    vm_compute in Hinherited. discriminate.
  - rewrite lookup_insert_eq, Hentry. destruct n; simpl; do 2 f_equal; lia.
Qed.

(** The property of a name after the whole pass. *)
Lemma generateMatchSummary_lookup (results : list Result) t :
  MatchSummary.difficultyTypeCounts (generateMatchSummary results) !! t
  = count_entry t (count_type t results).
Proof.
  unfold generateMatchSummary. simpl.
  induction results as [|r results IH] using rev_ind; [done|].
  rewrite foldl_snoc, count_type_snoc. cbv zeta.
  case_decide as Ht.
  - subst t. rewrite Nat.add_1_r. by apply count_round_same.
  - rewrite Nat.add_0_r, count_round_other by done. apply IH.
Qed.

Lemma count_entry_own t n :
  t ∉ objectPrototypeKeys ∨ n = 0%nat →
  count_entry t n = match n with O => None | S m => Some (Number (S m)) end.
Proof.
  intros [Hown| ->]; [|done]. unfold count_entry. destruct n; [done|].
  by rewrite bool_decide_eq_false_2.
Qed.

(** When no result carries an inherited name, a name is either carried by
    no result or not inherited. *)
Lemma own_or_absent (results : list Result) t :
  (∀ r, r ∈ results → difficulty_type_of r ∉ objectPrototypeKeys) →
  t ∉ objectPrototypeKeys ∨ count_type t results = 0%nat.
Proof.
  intros Hown. destruct (decide (t ∈ types_of results)) as [Hin|Hnot].
  - left. apply list_elem_of_fmap in Hin as (r & -> & Hr). by apply Hown.
  - right. apply with_type_nil in Hnot. unfold count_type. by rewrite Hnot.
Qed.

Lemma generateMatchSummary_lookup_own (results : list Result) t :
  (∀ r, r ∈ results → difficulty_type_of r ∉ objectPrototypeKeys) →
  MatchSummary.difficultyTypeCounts (generateMatchSummary results) !! t
  = match count_type t results with
    | O => None
    | S n => Some (Number (S n))
    end.
Proof.
  intros Hown. rewrite generateMatchSummary_lookup.
  by apply count_entry_own, own_or_absent.
Qed.





End ByDifficultyType.







(** ** The combined search *)

Lemma or_else_truthy message fallback :
  fallback ≠ [] → or_else message fallback ≠ [].
Proof.
  intros Hf. unfold or_else.
  destruct message as [[|c s]|]; simpl; done.
Qed.

Lemma or_else_given message fallback :
  message ≠ [] → or_else (Some message) fallback = message.
Proof. destruct message; simpl; done. Qed.

(** C7. [executeStudentSearch] never lets an exception reach its caller:
    whatever the two backend calls do, report a failure or throw included,
    it returns a result record with its [success] flag, and whenever the
    flag is [false] the record carries a non-empty error message. *)
Theorem executeStudentSearch_total (invoke : Backend)
    (studentFilePath difficultyFilePath difficultyType : jsstring) :
  ∃ result,
    executeStudentSearch invoke studentFilePath difficultyFilePath difficultyType
    = Fulfilled result
    ∧ (SearchResult.success result = false →
       ∃ message, SearchResult.error result = Some message ∧ message ≠ []).
Proof.
  unfold executeStudentSearch.
  destruct (findStudentsByDifficulty invoke _ _ _) as [matchResult|reason1],
    (getStudentsMatchStatistics invoke _ _ _) as [statsResult|reason2];
    simpl.
  - destruct (CommandResult.success matchResult),
      (CommandResult.success statsResult); simpl;
      eexists; (split; [reflexivity|]); simpl; try discriminate;
      intros _; eexists; (split; [reflexivity|]);
      by apply or_else_truthy.
  - eexists; split; [reflexivity|]. simpl. intros _.
    eexists; split; [reflexivity|]. vm_compute. discriminate.
  - eexists; split; [reflexivity|]. simpl. intros _.
    eexists; split; [reflexivity|]. vm_compute. discriminate.
  - eexists; split; [reflexivity|]. simpl. intros _.
    eexists; split; [reflexivity|]. vm_compute. discriminate.
Qed.

(** C2, as stated, fails: when the match command reports a failure and the
    statistics command succeeds, the combined result carries the zeroed
    statistics literal, not the statistics the backend returned. *)
Lemma executeStudentSearch_statistics_discarded :
  getStudentsMatchStatistics backend_match_fails [] [] (label RuralSubsistence)
    = Fulfilled (CommandResult.mk true (Some statistics_A) None)
  ∧ executeStudentSearch backend_match_fails [] [] (label RuralSubsistence)
    = Fulfilled
        {| SearchResult.matches := [];
           SearchResult.statistics := noStatistics;
           SearchResult.success := false;
           SearchResult.error := Some (utf16 "cannot read sheet") |}
  ∧ total_students noStatistics ≠ total_students statistics_A
  ∧ ¬ (∀ invoke a b c matchResult statsResult result,
         findStudentsByDifficulty invoke a b c = Fulfilled matchResult →
         getStudentsMatchStatistics invoke a b c = Fulfilled statsResult →
         CommandResult.success matchResult = false →
         CommandResult.success statsResult = true →
         executeStudentSearch invoke a b c = Fulfilled result →
         CommandResult.data statsResult
         = Some (SearchResult.statistics result)).
Proof.
  split; [reflexivity|]. split; [reflexivity|]. split; [discriminate|].
  intros Hclaim.
  specialize (Hclaim backend_match_fails [] [] [] _ _ _
                eq_refl eq_refl eq_refl eq_refl eq_refl).
  simpl in Hclaim. injection Hclaim as Hstudents _ _. discriminate.
Qed.

(** C2, amended. [executeStudentSearch] makes the match call and the
    statistics call and looks at both answers. When both calls return:
    - if the match call reports a failure, the result has [success = false],
      the match call's error message (a fixed default when that message is
      null or empty), no matches and zeroed statistics, whatever the
      statistics call answered;
    - if the match call succeeds and the statistics call reports a
      failure, the result has [success = false], the statistics call's
      error message (a fixed default when null or empty), the match call's
      data as matches (none when the data is null) and zeroed statistics;
    - if both succeed, the result has [success = true], no error, and the
      data of both calls.
    When a call throws, the result has [success = false], no matches,
    zeroed statistics, and a message made of a fixed prefix followed by the
    thrown reason. *)
Theorem executeStudentSearch_combines (invoke : Backend)
    (studentFilePath difficultyFilePath difficultyType : jsstring) :
  (∀ matchResult statsResult,
     findStudentsByDifficulty invoke
       studentFilePath difficultyFilePath difficultyType
     = Fulfilled matchResult →
     getStudentsMatchStatistics invoke
       studentFilePath difficultyFilePath difficultyType
     = Fulfilled statsResult →
     executeStudentSearch invoke
       studentFilePath difficultyFilePath difficultyType
     = Fulfilled
         (match CommandResult.success matchResult,
                CommandResult.success statsResult with
          | false, _ =>
            {| SearchResult.matches := [];
               SearchResult.statistics := noStatistics;
               SearchResult.success := false;
               SearchResult.error :=
                 Some (match CommandResult.error matchResult with
                       | Some (c :: message) => c :: message
                       | _ => utf16 "查找学生失败"
                       end) |}
          | true, false =>
            {| SearchResult.matches :=
                 match CommandResult.data matchResult with
                 | Some matches => matches
                 | None => []
                 end;
               SearchResult.statistics := noStatistics;
               SearchResult.success := false;
               SearchResult.error :=
                 Some (match CommandResult.error statsResult with
                       | Some (c :: message) => c :: message
                       | _ => utf16 "获取统计信息失败"
                       end) |}
          | true, true =>
            {| SearchResult.matches :=
                 match CommandResult.data matchResult with
                 | Some matches => matches
                 | None => []
                 end;
               SearchResult.statistics :=
                 match CommandResult.data statsResult with
                 | Some statistics => statistics
                 | None => noStatistics
                 end;
               SearchResult.success := true;
               SearchResult.error := None |}
          end))
  ∧ ((∃ reason,
        findStudentsByDifficulty invoke
          studentFilePath difficultyFilePath difficultyType
        = Rejected reason)
     ∨ (∃ reason,
        getStudentsMatchStatistics invoke
          studentFilePath difficultyFilePath difficultyType
        = Rejected reason) →
     ∃ reason,
       (findStudentsByDifficulty invoke
          studentFilePath difficultyFilePath difficultyType
        = Rejected reason
        ∨ getStudentsMatchStatistics invoke
            studentFilePath difficultyFilePath difficultyType
          = Rejected reason)
       ∧ executeStudentSearch invoke
           studentFilePath difficultyFilePath difficultyType
         = Fulfilled
             {| SearchResult.matches := [];
                SearchResult.statistics := noStatistics;
                SearchResult.success := false;
                SearchResult.error :=
                  Some (utf16 "执行查找时发生错误: " ++ reason) |}).
Proof.
  unfold executeStudentSearch. split.
  - intros matchResult statsResult -> ->. simpl.
    destruct (CommandResult.success matchResult),
      (CommandResult.success statsResult); simpl; f_equal; f_equal;
      try done; f_equal; unfold or_else;
      by repeat case_match.
  - intros Hthrow.
    destruct (findStudentsByDifficulty invoke _ _ _) as [matchResult|reason1],
      (getStudentsMatchStatistics invoke _ _ _) as [statsResult|reason2];
      simpl.
    + destruct Hthrow as [[? ?]|[? ?]]; discriminate.
    + exists reason2. eauto.
    + exists reason1. eauto.
    + destruct (race invoke); [exists reason1|exists reason2]; eauto.
Qed.

Lemma executeStudentSearch_combines_witness :
  executeStudentSearch backend_statistics_fail [] [] (label RuralSubsistence)
  = Fulfilled
      {| SearchResult.matches := [match_A];
         SearchResult.statistics := noStatistics;
         SearchResult.success := false;
         SearchResult.error := Some (utf16 "no statistics") |}
  ∧ ∃ reason,
      executeStudentSearch backend_statistics_throw [] []
        (label RuralSubsistence)
      = Fulfilled
          {| SearchResult.matches := [];
             SearchResult.statistics := noStatistics;
             SearchResult.success := false;
             SearchResult.error :=
               Some (utf16 "执行查找时发生错误: " ++ reason) |}.
Proof.
  split.
  - apply (proj1 (executeStudentSearch_combines backend_statistics_fail
                    [] [] (label RuralSubsistence))
             (CommandResult.mk true (Some [match_A]) None)
             (CommandResult.mk false None (Some (utf16 "no statistics"))));
      reflexivity.
  - destruct (proj2 (executeStudentSearch_combines backend_statistics_throw
                       [] [] (label RuralSubsistence)))
      as (reason & _ & Hresult).
    + right. exists (utf16 "ipc closed"). reflexivity.
    + exists reason. exact Hresult.
Defined.

(** ** The matching engine *)

Lemma student_lookup_Some students key s :
  student_lookup students !! key = Some s → s ∈ students ∧ id_number s = key.
Proof.
  unfold student_lookup.
  induction students as [|s' students IH] using rev_ind; [done|].
  rewrite foldl_snoc, lookup_insert. case_decide as Hkey.
  - intros [= <-]. split; [|done]. apply elem_of_app. right. left.
  - intros H. destruct (IH H) as [Hin Hid]. split; [|done].
    apply elem_of_app. by left.
Qed.

Lemma student_lookup_is_Some students s :
  s ∈ students → is_Some (student_lookup students !! id_number s).
Proof.
  unfold student_lookup.
  induction students as [|s' students IH] using rev_ind.
  - by intros ?%not_elem_of_nil.
  - rewrite foldl_snoc, lookup_insert. case_decide; [eauto|].
    intros [Hin|Hin%list_elem_of_singleton]%elem_of_app; [by apply IH|].
    by subst.
Qed.

Lemma elem_of_find_matches students difficulty_records category m :
  m ∈ find_matches students difficulty_records category
  ↔ difficult_info m ∈ difficulty_records
    ∧ label (difficulty_type (difficult_info m)) = category
    ∧ student_lookup students !! person_id_number (difficult_info m)
      = Some (student m).
Proof.
  unfold find_matches. rewrite list_elem_of_omap. split.
  - intros (r & [Hr Htype%bool_decide_eq_true]%elem_of_filter_bool & Hm).
    destruct (student_lookup students !! person_id_number r) eqn:Hs;
      simplify_eq/=. done.
  - intros (Hr & Htype & Hs). exists (difficult_info m). split.
    + apply elem_of_filter_bool. by rewrite bool_decide_eq_true.
    + rewrite Hs. by destruct m.
Qed.

(** C4. Every result of [find_matches] carries a difficulty record of the
    table whose difficulty type is the requested category and a student of
    the student table whose identity number is, code unit for code unit,
    the identity number of that record. A difficulty record whose identity
    number belongs to no student yields no result, one of the category
    whose identity number belongs to a student yields one, and nothing is
    reported as an error for the dropped records: the command answers with
    success whenever both tables could be read. *)
Theorem find_matches_sound
    (students : list Student) (difficulty_records : list DifficultPerson)
    (category : jsstring) :
  (∀ m, m ∈ find_matches students difficulty_records category →
     label (difficulty_type (difficult_info m)) = category
     ∧ difficult_info m ∈ difficulty_records
     ∧ student m ∈ students
     ∧ id_number (student m) = person_id_number (difficult_info m))
  ∧ (∀ r, r ∈ difficulty_records →
       (∀ s, s ∈ students → id_number s ≠ person_id_number r) →
       ∀ m, m ∈ find_matches students difficulty_records category →
            difficult_info m ≠ r)
  ∧ (∀ r s, r ∈ difficulty_records →
       label (difficulty_type r) = category →
       s ∈ students → id_number s = person_id_number r →
       ∃ m, m ∈ find_matches students difficulty_records category
            ∧ difficult_info m = r)
  ∧ (∀ read_students read_difficulty_records student_path difficulty_path,
       read_students student_path = inr students →
       read_difficulty_records difficulty_path = inr difficulty_records →
       find_matches_command read_students read_difficulty_records
         student_path difficulty_path category
       = CommandResult.mk true
           (Some (find_matches students difficulty_records category)) None).
Proof.
  split; [|split; [|split]].
  - intros m
      (Hr & Htype & [Hs Hid]%student_lookup_Some)%elem_of_find_matches.
    done.
  - intros r Hin Horphan m
      (_ & _ & [Hs Hid]%student_lookup_Some)%elem_of_find_matches <-.
    by apply (Horphan (student m)).
  - intros r s Hin Hcat Hs Hid.
    destruct (student_lookup_is_Some students s Hs) as [s' Hlook].
    exists {| student := s'; difficult_info := r |}. split; [|done].
    apply elem_of_find_matches. simpl. by rewrite <- Hid.
  - intros read_students read_difficulty_records student_path difficulty_path
      Hstudents Hrecords.
    unfold find_matches_command. by rewrite Hstudents, Hrecords.
Qed.

(** The example of the spec, with an orphan record and a record of another
    category added to the difficulty table. *)
Lemma find_matches_example :
  find_matches [student_A] [record_orphan; record_A; record_B]
    (label RuralSubsistence) = [match_A].
Proof. vm_compute. reflexivity. Qed.

(** The second example of the spec: the same tables, another category. *)
Lemma find_matches_other_category :
  find_matches [student_A] [record_A] (label UrbanSubsistence) = [].
Proof. vm_compute. reflexivity. Qed.

Lemma find_matches_sound_witness :
  label (difficulty_type (difficult_info match_A)) = label RuralSubsistence
  ∧ student match_A ∈ [student_A]
  ∧ ∀ m, m ∈ find_matches [student_A] [record_orphan; record_A; record_B]
               (label RuralSubsistence) →
         difficult_info m ≠ record_orphan.
Proof.
  destruct (find_matches_sound [student_A] [record_orphan; record_A; record_B]
              (label RuralSubsistence)) as (Hsound & Horphan & _).
  destruct (Hsound match_A) as (Htype & _ & Hs & _).
  { rewrite find_matches_example. left. }
  split; [exact Htype|]. split; [exact Hs|].
  apply Horphan; [left|].
  intros s Hs'%list_elem_of_singleton. subst s. vm_compute. discriminate.
Defined.

Lemma elem_of_allDifficultyTypes t : t ∈ allDifficultyTypes.
Proof. destruct t; apply (bool_decide_unpack _); vm_compute; exact I. Qed.

(** C5. For a category that is not the label of any member of the fixed
    enumeration, [find_matches] returns the empty list whatever the two
    tables hold, and the command answers with success and that empty list
    whenever both tables could be read. *)
Theorem find_matches_unknown_category
    (students : list Student) (difficulty_records : list DifficultPerson)
    (category : jsstring) :
  category ∉ label <$> allDifficultyTypes →
  find_matches students difficulty_records category = []
  ∧ (∀ read_students read_difficulty_records student_path difficulty_path,
       read_students student_path = inr students →
       read_difficulty_records difficulty_path = inr difficulty_records →
       find_matches_command read_students read_difficulty_records
         student_path difficulty_path category
       = CommandResult.mk true (Some []) None).
Proof.
  intros Hunknown.
  assert (find_matches students difficulty_records category = []) as Hnone.
  { destruct (find_matches students difficulty_records category) as [|m l]
      eqn:Hm; [done|].
    assert (m ∈ find_matches students difficulty_records category) as Hin
      by (rewrite Hm; left).
    apply elem_of_find_matches in Hin as (_ & Htype & _).
    destruct Hunknown. rewrite <- Htype.
    apply list_elem_of_fmap_2, elem_of_allDifficultyTypes. }
  split; [done|].
  intros read_students read_difficulty_records student_path difficulty_path
    Hstudents Hrecords.
  unfold find_matches_command. by rewrite Hstudents, Hrecords, Hnone.
Qed.

Lemma find_matches_unknown_category_witness :
  find_matches [student_A] [record_A; record_B] (utf16 "unknown") = []
  ∧ find_matches_command (λ _, inr [student_A]) (λ _, inr [record_A; record_B])
      (utf16 "s.xlsx") (utf16 "d.xlsx") (utf16 "unknown")
    = CommandResult.mk true (Some []) None.
Proof.
  destruct (find_matches_unknown_category [student_A] [record_A; record_B]
              (utf16 "unknown")) as [Hnone Hcommand].
  - apply (bool_decide_unpack _). vm_compute. exact I.
  - split; [exact Hnone|]. by apply Hcommand.
Defined.

(* ===================================================================== *)
(** * Further properties of the command layer *)
(* ===================================================================== *)

(** ** Masking *)

Lemma maskIdNumber_long (s : jsstring) :
  (6 ≤ length s)%nat →
  maskIdNumber s = take 3 s ++ utf16 "****" ++ drop (length s - 3) s.
Proof.
  intros Hlen. unfold maskIdNumber.
  destruct (Z.leb_spec 6 (Z.of_nat (length s))) as [_|]; [|lia].
  change (substring s 0 (Some 3)) with (substring s 0 (Some (Z.of_nat 3))).
  change (Z.of_nat (length s) - 3) with (Z.of_nat (length s) - Z.of_nat 3).
  by rewrite substring_prefix, substring_suffix by lia.
Qed.

Lemma maskIdNumber_short (s : jsstring) :
  (length s < 6)%nat → maskIdNumber s = utf16 "****".
Proof.
  intros Hlen. unfold maskIdNumber.
  destruct (Z.leb_spec 6 (Z.of_nat (length s))); [lia|reflexivity].
Qed.

(** X1. The rendering of [maskIdNumber] shows nothing of an identity
    number but its first three and last three code units: two numbers of at
    least 6 code units that agree on those are rendered alike, whatever
    their lengths and whatever lies in between. *)
Theorem maskIdNumber_hides_middle (s1 s2 : jsstring) :
  (6 ≤ length s1)%nat → (6 ≤ length s2)%nat →
  take 3 s1 = take 3 s2 →
  drop (length s1 - 3) s1 = drop (length s2 - 3) s2 →
  maskIdNumber s1 = maskIdNumber s2.
Proof.
  intros H1 H2 Hhead Htail.
  by rewrite !maskIdNumber_long, Hhead, Htail by done.
Qed.

Lemma maskIdNumber_hides_middle_witness :
  maskIdNumber (utf16 "110101200001011234")
  = maskIdNumber (utf16 "110999999234").
Proof.
  apply maskIdNumber_hides_middle;
    [vm_compute; lia|vm_compute; lia|reflexivity|reflexivity].
Defined.

(** X2. Masking a rendering again changes nothing: the output of
    [maskIdNumber] is a fixed point of [maskIdNumber]. *)
Theorem maskIdNumber_idempotent (s : jsstring) :
  maskIdNumber (maskIdNumber s) = maskIdNumber s.
Proof.
  destruct (decide (6 ≤ length s)%nat) as [Hlen|Hlen].
  - rewrite (maskIdNumber_long s Hlen).
    set (head := take 3 s). set (tail := drop (length s - 3) s).
    assert (length head = 3%nat) as Hhead
      by (unfold head; rewrite length_take; lia).
    assert (length tail = 3%nat) as Htail
      by (unfold tail; rewrite length_drop; lia).
    clearbody head tail.
    do 4 (destruct head as [|? head]; try discriminate).
    do 4 (destruct tail as [|? tail]; try discriminate).
    reflexivity.
  - by rewrite (maskIdNumber_short s), (maskIdNumber_short (utf16 "****"))
      by (simpl; lia).
Qed.

(** X3. An identity number of exactly 6 code units is rendered with all
    six of them: the mask is inserted and nothing is hidden. *)
Theorem maskIdNumber_six_shown_whole (s : jsstring) :
  length s = 6%nat →
  maskIdNumber s = take 3 s ++ utf16 "****" ++ drop 3 s
  ∧ take 3 (maskIdNumber s) ++ drop 7 (maskIdNumber s) = s.
Proof.
  intros Hlen. rewrite maskIdNumber_long, Hlen by lia. simpl.
  split; [reflexivity|].
  do 7 (destruct s as [|? s]; try discriminate). reflexivity.
Qed.

Lemma maskIdNumber_six_shown_whole_witness :
  maskIdNumber (utf16 "123456") = utf16 "123****456".
Proof.
  destruct (maskIdNumber_six_shown_whole (utf16 "123456")) as [H _];
    [reflexivity|].
  rewrite H. reflexivity.
Defined.

(** ** Summaries *)

Section SummaryFacts.
Context {Result : Type} `{DifficultyTyped Result}.

Lemma counts_total_insert (counts : gmap jsstring CountValue) t value :
  counts !! t = None →
  counts_total (<[t := value]> counts)
  = (as_count (Some value) + counts_total counts)%nat.
Proof.
  intros Ht. unfold counts_total.
  rewrite map_fold_insert_L; [done| |done]. intros. lia.
Qed.

(** One round of the [forEach] in [generateMatchSummary], on a name that
    is not inherited, adds one. *)
Lemma counts_total_grow (counts : gmap jsstring CountValue) type n :
  type ∉ objectPrototypeKeys →
  counts !! type = match n with O => None | S m => Some (Number (S m)) end →
  counts_total
    (assign_count counts type (or_zero_plus_one (read_count counts type)))
  = S (counts_total counts).
Proof.
  intros Hown Hentry. unfold assign_count, read_count.
  rewrite bool_decide_eq_false_2
    by (intros ->; apply Hown, proto_inherited).
  rewrite Hentry. destruct n as [|n]; simpl.
  - rewrite bool_decide_eq_false_2 by done. simpl.
    by rewrite counts_total_insert.
  - rewrite <- (insert_delete_id counts type _ Hentry) at 2.
    rewrite <- insert_delete_eq.
    rewrite !counts_total_insert by apply lookup_delete_eq. simpl. lia.
Qed.

(** X4. When no result carries a difficulty type that is the name of a
    property inherited from [Object.prototype], the per-type counts of a
    summary add up to its [totalMatches]: every result is counted once. *)
Theorem generateMatchSummary_counts_add_up (results : list Result) :
  (∀ r, r ∈ results → difficulty_type_of r ∉ objectPrototypeKeys) →
  counts_total (MatchSummary.difficultyTypeCounts (generateMatchSummary results))
  = MatchSummary.totalMatches (generateMatchSummary results).
Proof.
  induction results as [|r results IH] using rev_ind; intros Hown; [done|].
  assert (∀ r', r' ∈ results →
                difficulty_type_of r' ∉ objectPrototypeKeys) as Hown'
    by (intros r' Hr'; apply Hown, elem_of_app; by left).
  pose proof (generateMatchSummary_lookup_own results
                (difficulty_type_of r) Hown') as Hentry.
  specialize (IH Hown'). revert IH Hentry.
  unfold generateMatchSummary. simpl. intros IH Hentry.
  rewrite foldl_snoc. cbv zeta.
  rewrite (counts_total_grow _ _ (count_type (difficulty_type_of r) results)).
  - rewrite IH, length_app. simpl. lia.
  - apply Hown, elem_of_app. right. left.
  - rewrite Hentry. by destruct (count_type _ results).
Qed.

Lemma count_type_app t (results1 results2 : list Result) :
  count_type t (results1 ++ results2)
  = (count_type t results1 + count_type t results2)%nat.
Proof.
  unfold count_type, with_type, with_key.
  by rewrite List.filter_app, length_app.
Qed.




(** X6. The summary of two lists put end to end is the sum of their
    summaries: the totals add, and, when no result carries a difficulty
    type that is the name of a property inherited from [Object.prototype],
    so do the counts, type by type (a type counted in one list only keeps
    that count). *)
Theorem generateMatchSummary_app (results1 results2 : list Result) :
  MatchSummary.totalMatches (generateMatchSummary (results1 ++ results2))
  = (MatchSummary.totalMatches (generateMatchSummary results1)
     + MatchSummary.totalMatches (generateMatchSummary results2))%nat
  ∧ ((∀ r, r ∈ results1 ++ results2 →
           difficulty_type_of r ∉ objectPrototypeKeys) →
     MatchSummary.difficultyTypeCounts
       (generateMatchSummary (results1 ++ results2))
     = union_with
         (λ value1 value2,
            Some (Number (as_count (Some value1) + as_count (Some value2))))
         (MatchSummary.difficultyTypeCounts (generateMatchSummary results1))
         (MatchSummary.difficultyTypeCounts (generateMatchSummary results2))).
Proof.
  split; [simpl; apply length_app|].
  intros Hown. apply map_eq. intros t.
  rewrite lookup_union_with, !generateMatchSummary_lookup_own, count_type_app;
    [|intros r Hr; apply Hown, elem_of_app; by right
     |intros r Hr; apply Hown, elem_of_app; by left
     |done].
  destruct (count_type t results1), (count_type t results2); simpl;
    do 2 f_equal; lia.
Qed.

End SummaryFacts.

Lemma generateMatchSummary_counts_add_up_witness :
  counts_total
    (MatchSummary.difficultyTypeCounts
       (generateMatchSummary [match_A; match_B; match_A])) = 3%nat.
Proof.
  apply (generateMatchSummary_counts_add_up [match_A; match_B; match_A]).
  intros r Hr. apply (bool_decide_unpack _).
  repeat (apply elem_of_cons in Hr as [->|Hr]; [vm_compute; exact I|]).
  by apply not_elem_of_nil in Hr.
Defined.


Lemma generateMatchSummary_app_witness :
  MatchSummary.difficultyTypeCounts
    (generateMatchSummary ([match_A; match_B] ++ [match_A]))
  = union_with
      (λ value1 value2,
         Some (Number (as_count (Some value1) + as_count (Some value2))))
      (MatchSummary.difficultyTypeCounts
         (generateMatchSummary [match_A; match_B]))
      (MatchSummary.difficultyTypeCounts (generateMatchSummary [match_A])).
Proof.
  apply (generateMatchSummary_app [match_A; match_B] [match_A]).
  intros r Hr. apply (bool_decide_unpack _).
  repeat (apply elem_of_cons in Hr as [->|Hr]; [vm_compute; exact I|]).
  by apply not_elem_of_nil in Hr.
Defined.

(** ** Searching, continued *)

Lemma filter_filter_bool {A} (keep1 keep2 : A → bool) (l : list A) :
  List.filter keep1 (List.filter keep2 l)
  = List.filter (λ x, keep2 x && keep1 x) l.
Proof.
  induction l as [|x l IH]; simpl; [done|].
  destruct (keep2 x); simpl; [|done].
  destruct (keep1 x); by rewrite IH.
Qed.

Lemma filter_bool_ext {A} (keep1 keep2 : A → bool) (l : list A) :
  (∀ x, keep1 x = keep2 x) → List.filter keep1 l = List.filter keep2 l.
Proof.
  intros Hext. induction l as [|x l IH]; simpl; [done|].
  by rewrite Hext, IH.
Qed.

Section SearchComposition.
Variable toLowerCase : jsstring → jsstring.

(** [searchInMatches] is the input list when the term is blank and a
    filter of it otherwise; either way it is the filter by one test. *)
Lemma searchInMatches_as_filter matches searchTerm :
  searchInMatches toLowerCase matches searchTerm
  = List.filter
      (λ m, negb (truthy (trim searchTerm))
            || matchesTerm toLowerCase (trim (toLowerCase searchTerm)) m)
      matches.
Proof.
  unfold searchInMatches.
  destruct (negb (truthy (trim searchTerm))); simpl; [|done].
  induction matches as [|m matches IH]; simpl; [done|]. by rewrite <- IH.
Qed.

(** X7. Searches narrow one another: searching the answer of a search
    with the same term changes nothing, and searching with one term and
    then with another gives the same list whichever term comes first. *)
Theorem searchInMatches_refines
    (matches : list MatchResult) (term1 term2 : jsstring) :
  searchInMatches toLowerCase
    (searchInMatches toLowerCase matches term1) term1
  = searchInMatches toLowerCase matches term1
  ∧ searchInMatches toLowerCase
      (searchInMatches toLowerCase matches term1) term2
    = searchInMatches toLowerCase
        (searchInMatches toLowerCase matches term2) term1.
Proof.
  rewrite !searchInMatches_as_filter, !filter_filter_bool. split.
  - apply filter_bool_ext. intros m. apply andb_diag.
  - apply filter_bool_ext. intros m. apply andb_comm.
Qed.

(** X8. A search over two lists put end to end is the two searches put
    end to end; in particular a search never reorders results and an empty
    list has no hit. *)
Theorem searchInMatches_app
    (matches1 matches2 : list MatchResult) (searchTerm : jsstring) :
  searchInMatches toLowerCase (matches1 ++ matches2) searchTerm
  = searchInMatches toLowerCase matches1 searchTerm
    ++ searchInMatches toLowerCase matches2 searchTerm.
Proof. rewrite !searchInMatches_as_filter. apply List.filter_app. Qed.

End SearchComposition.

(** ** The combined search, continued *)

(** X9. [executeStudentSearch] reports success exactly when both backend
    calls returned and both reported success; the result is then the data
    of the two calls, with no error message. *)
Theorem executeStudentSearch_success_iff (invoke : Backend)
    (studentFilePath difficultyFilePath difficultyType : jsstring)
    (result : SearchResult.t) :
  executeStudentSearch invoke studentFilePath difficultyFilePath difficultyType
  = Fulfilled result →
  SearchResult.success result = true
  ↔ ∃ matchResult statsResult,
      findStudentsByDifficulty invoke
        studentFilePath difficultyFilePath difficultyType
      = Fulfilled matchResult
      ∧ getStudentsMatchStatistics invoke
          studentFilePath difficultyFilePath difficultyType
        = Fulfilled statsResult
      ∧ CommandResult.success matchResult = true
      ∧ CommandResult.success statsResult = true
      ∧ SearchResult.matches result
        = default [] (CommandResult.data matchResult)
      ∧ SearchResult.statistics result
        = default noStatistics (CommandResult.data statsResult)
      ∧ SearchResult.error result = None.
Proof.
  unfold executeStudentSearch.
  destruct (findStudentsByDifficulty invoke _ _ _) as [matchResult|reason1],
    (getStudentsMatchStatistics invoke _ _ _) as [statsResult|reason2];
    simpl.
  - destruct (CommandResult.success matchResult) eqn:Hm,
      (CommandResult.success statsResult) eqn:Hs; simpl;
      intros [= <-]; simpl; split; try discriminate;
      try (intros (? & ? & [= <-] & [= <-] & ? & ? & _); congruence).
    intros _. by exists matchResult, statsResult.
  - intros [= <-]. split; [discriminate|]. by intros (? & ? & _ & ? & _).
  - intros [= <-]. split; [discriminate|]. by intros (? & ? & ? & _).
  - intros [= <-]. split; [discriminate|]. by intros (? & ? & ? & _).
Qed.

Lemma executeStudentSearch_success_iff_witness :
  ∃ matchResult statsResult,
    findStudentsByDifficulty backend_both_succeed [] [] (label RuralSubsistence)
    = Fulfilled matchResult
    ∧ getStudentsMatchStatistics backend_both_succeed [] []
        (label RuralSubsistence)
      = Fulfilled statsResult
    ∧ CommandResult.success matchResult = true
    ∧ CommandResult.success statsResult = true
    ∧ [match_A] = default [] (CommandResult.data matchResult)
    ∧ statistics_A = default noStatistics (CommandResult.data statsResult)
    ∧ None = (None : option jsstring).
Proof.
  apply (executeStudentSearch_success_iff backend_both_succeed
           [] [] (label RuralSubsistence)
           {| SearchResult.matches := [match_A];
              SearchResult.statistics := statistics_A;
              SearchResult.success := true;
              SearchResult.error := None |});
    reflexivity.
Defined.

(** X10. A failed combined search never carries statistics, and it carries
    matches only when the match call itself succeeded (the failure then
    being that of the statistics call). *)
Theorem executeStudentSearch_failure_data (invoke : Backend)
    (studentFilePath difficultyFilePath difficultyType : jsstring)
    (result : SearchResult.t) :
  executeStudentSearch invoke studentFilePath difficultyFilePath difficultyType
  = Fulfilled result →
  SearchResult.success result = false →
  SearchResult.statistics result = noStatistics
  ∧ (SearchResult.matches result ≠ [] →
     ∃ matchResult,
       findStudentsByDifficulty invoke
         studentFilePath difficultyFilePath difficultyType
       = Fulfilled matchResult
       ∧ CommandResult.success matchResult = true
       ∧ CommandResult.data matchResult = Some (SearchResult.matches result)).
Proof.
  unfold executeStudentSearch.
  destruct (findStudentsByDifficulty invoke _ _ _) as [matchResult|reason1],
    (getStudentsMatchStatistics invoke _ _ _) as [statsResult|reason2];
    simpl; try (by intros [= <-] _).
  destruct (CommandResult.success matchResult) eqn:Hm,
    (CommandResult.success statsResult) eqn:Hs; simpl;
    intros [= <-]; simpl; try done.
  intros _. split; [done|]. intros Hdata. exists matchResult.
  split; [done|]. split; [done|].
  by destruct (CommandResult.data matchResult).
Qed.

Lemma executeStudentSearch_failure_data_witness :
  SearchResult.statistics
    {| SearchResult.matches := [match_A];
       SearchResult.statistics := noStatistics;
       SearchResult.success := false;
       SearchResult.error := Some (utf16 "no statistics") |} = noStatistics.
Proof.
  apply (executeStudentSearch_failure_data backend_statistics_fail
           [] [] (label RuralSubsistence)); reflexivity.
Defined.

(** ** Groupings keyed by free text *)

Lemma or_else_absent fallback : or_else None fallback = fallback.
Proof. reflexivity. Qed.

(** X11. When no school name is a property name inherited from
    [Object.prototype], [groupMatchesBySchool] returns a partition of its
    input: the group under a name is the non-empty list of the results
    filed under it, in input order. A result with a non-empty school is
    filed under that school; a result with no school or an empty school is
    filed under "未知学校". *)
Theorem groupMatchesBySchool_partitions (matches : list MatchResult) :
  (∀ m, m ∈ matches → school_key m ∉ objectPrototypeKeys) →
  ∃ grouped,
    groupMatchesBySchool matches = Returns grouped
    ∧ (∀ k group,
         grouped !! k = Some group
         ↔ group = with_key school_key k matches ∧ group ≠ [])
    ∧ (∀ m, m ∈ matches →
         ∃ group,
           grouped !! (match school (student m) with
                       | Some (c :: s) => c :: s
                       | _ => utf16 "未知学校"
                       end) = Some group
           ∧ m ∈ group).
Proof.
  intros Hsafe.
  destruct (group_by_key_safe school_key matches Hsafe)
    as (grouped & Hloop & Hgroups).
  exists grouped. split; [exact Hloop|].
  assert (∀ k group,
         grouped !! k = Some group
         ↔ group = with_key school_key k matches ∧ group ≠ []) as Hiff.
  { intros k group. rewrite Hgroups.
    destruct (with_key school_key k matches) as [|m l].
    - split; [done|]. by intros [-> ?].
    - split; [by intros [= <-]|]. by intros [-> _]. }
  split; [exact Hiff|].
  intros m Hm. exists (with_key school_key (school_key m) matches).
  assert (m ∈ with_key school_key (school_key m) matches) as Hin
    by by apply elem_of_with_key.
  split; [|done].
  replace (match school (student m) with
           | Some (c :: s) => c :: s
           | _ => utf16 "未知学校"
           end) with (school_key m)
    by (unfold school_key, or_else; by repeat case_match).
  apply Hiff. split; [done|]. intros Hnil. rewrite Hnil in Hin.
  by apply not_elem_of_nil in Hin.
Qed.

Lemma groupMatchesBySchool_partitions_witness :
  ∃ grouped,
    groupMatchesBySchool [match_A; match_D; match_B] = Returns grouped
    ∧ grouped !! utf16 "未知学校" = Some [match_A; match_B].
Proof.
  destruct (groupMatchesBySchool_partitions [match_A; match_D; match_B])
    as (grouped & Hloop & Hgroups & _).
  - intros m Hm. apply (bool_decide_unpack _).
    repeat (apply elem_of_cons in Hm as [->|Hm]; [vm_compute; exact I|]).
    by apply not_elem_of_nil in Hm.
  - exists grouped. split; [exact Hloop|].
    apply Hgroups. split; [reflexivity|discriminate].
Defined.

(** X12. When no grade is a property name inherited from
    [Object.prototype], [groupMatchesByGrade] returns a partition of its
    input: the group under a grade is the non-empty list of the results
    filed under it, in input order. A result with a non-empty grade is
    filed under that grade; a result with no grade or an empty grade is
    filed under "未知年级". *)
Theorem groupMatchesByGrade_partitions (matches : list MatchResult) :
  (∀ m, m ∈ matches → grade_key m ∉ objectPrototypeKeys) →
  ∃ grouped,
    groupMatchesByGrade matches = Returns grouped
    ∧ (∀ k group,
         grouped !! k = Some group
         ↔ group = with_key grade_key k matches ∧ group ≠ [])
    ∧ (∀ m, m ∈ matches →
         ∃ group,
           grouped !! (match grade (student m) with
                       | Some (c :: s) => c :: s
                       | _ => utf16 "未知年级"
                       end) = Some group
           ∧ m ∈ group).
Proof.
  intros Hsafe.
  destruct (group_by_key_safe grade_key matches Hsafe)
    as (grouped & Hloop & Hgroups).
  exists grouped. split; [exact Hloop|].
  assert (∀ k group,
         grouped !! k = Some group
         ↔ group = with_key grade_key k matches ∧ group ≠ []) as Hiff.
  { intros k group. rewrite Hgroups.
    destruct (with_key grade_key k matches) as [|m l].
    - split; [done|]. by intros [-> ?].
    - split; [by intros [= <-]|]. by intros [-> _]. }
  split; [exact Hiff|].
  intros m Hm. exists (with_key grade_key (grade_key m) matches).
  assert (m ∈ with_key grade_key (grade_key m) matches) as Hin
    by by apply elem_of_with_key.
  split; [|done].
  replace (match grade (student m) with
           | Some (c :: s) => c :: s
           | _ => utf16 "未知年级"
           end) with (grade_key m)
    by (unfold grade_key, or_else; by repeat case_match).
  apply Hiff. split; [done|]. intros Hnil. rewrite Hnil in Hin.
  by apply not_elem_of_nil in Hin.
Qed.

Lemma groupMatchesByGrade_partitions_witness :
  ∃ grouped,
    groupMatchesByGrade [match_A; match_D; match_B] = Returns grouped
    ∧ grouped !! utf16 "G7" = Some [match_D].
Proof.
  destruct (groupMatchesByGrade_partitions [match_A; match_D; match_B])
    as (grouped & Hloop & Hgroups & _).
  - intros m Hm. apply (bool_decide_unpack _).
    repeat (apply elem_of_cons in Hm as [->|Hm]; [vm_compute; exact I|]).
    by apply not_elem_of_nil in Hm.
  - exists grouped. split; [exact Hloop|].
    apply Hgroups. split; [reflexivity|discriminate].
Defined.

(** X13. The two groupings keyed by free text throw a [TypeError] instead
    of returning exactly when some result is filed under a name that a
    fresh object inherits from [Object.prototype], such as a school called
    "constructor" or a grade called "toString": the inherited value is
    taken for a group and has no [push]. *)
Theorem groupMatches_inherited_key_throws (matches : list MatchResult) :
  (groupMatchesBySchool matches = ThrowsTypeError
   ↔ ∃ m, m ∈ matches ∧ school_key m ∈ objectPrototypeKeys)
  ∧ (groupMatchesByGrade matches = ThrowsTypeError
     ↔ ∃ m, m ∈ matches ∧ grade_key m ∈ objectPrototypeKeys).
Proof.
  split.
  - apply (group_by_key_throws school_key).
  - apply (group_by_key_throws grade_key).
Qed.

Lemma groupMatches_inherited_key_throws_witness :
  groupMatchesBySchool [match_A; match_C; match_D] = ThrowsTypeError
  ∧ groupMatchesByGrade [match_A; match_C; match_D] = ThrowsTypeError.
Proof.
  split.
  - apply (groupMatches_inherited_key_throws [match_A; match_C; match_D]).
    exists match_C. split; [right; left|].
    apply (bool_decide_unpack _). vm_compute. exact I.
  - apply (groupMatches_inherited_key_throws [match_A; match_C; match_D]).
    exists match_C. split; [right; left|].
    apply (bool_decide_unpack _). vm_compute. exact I.
Defined.

(** ** Byte counts *)

Lemma Qle_bool_true (x y : Q) : (x <= y)%Q → Qle_bool x y = true.
Proof. apply Qle_bool_iff. Qed.

Lemma Qle_bool_false (x y : Q) : (y < x)%Q → Qle_bool x y = false.
Proof.
  intros Hlt. destruct (Qle_bool x y) eqn:Hle; [|done].
  apply Qle_bool_iff in Hle. by apply Qlt_not_le in Hlt.
Qed.

Lemma Qle_bool_false_lt (x y : Q) : Qle_bool x y = false → (y < x)%Q.
Proof.
  intros Hle. apply Qnot_le_lt. intros H%Qle_bool_iff. congruence.
Qed.

Ltac by_1024 :=
  unfold Qdiv in *; change (/ 1024)%Q with (1 # 1024)%Q in *; lra.

Lemma formatBytes_loop_more fuel (bytes : Q) i :
  (1024 <= bytes)%Q → (i < 3)%nat →
  formatBytes_loop (S fuel) bytes i
  = formatBytes_loop fuel (bytes / 1024)%Q (S i).
Proof.
  intros Hbytes Hi. cbn [formatBytes_loop].
  rewrite Qle_bool_true by done.
  by rewrite (proj2 (Nat.ltb_lt i (length units - 1))) by (simpl; lia).
Qed.

Lemma formatBytes_loop_small fuel (bytes : Q) i :
  (bytes < 1024)%Q → formatBytes_loop fuel bytes i = (bytes, i).
Proof.
  intros Hbytes. destruct fuel; [done|]. cbn [formatBytes_loop].
  by rewrite Qle_bool_false.
Qed.

(** The fuel given in [formatBytes] is enough: the loop is left because
    its condition is false, not because the rounds ran out. *)
Lemma formatBytes_loop_ends (bytes : Q) :
  formatBytes_continues (formatBytes_loop (length units) bytes 0) = false.
Proof.
  assert (∀ fuel b i, (3 - i < fuel)%nat →
            formatBytes_continues (formatBytes_loop fuel b i) = false) as H.
  { induction fuel as [|fuel IH]; intros b i Hfuel; [lia|].
    cbn [formatBytes_loop].
    destruct (Qle_bool 1024 b && (i <? length units - 1)%nat) eqn:Hc.
    - apply andb_true_iff in Hc as [_ Hi%Nat.ltb_lt]. simpl in Hi.
      apply IH. lia.
    - exact Hc. }
  apply H. simpl. lia.
Qed.

Lemma formatBytes_B (bytes : Q) :
  (bytes < 1024)%Q → formatBytes bytes = toFixed2 bytes ++ utf16 " B".
Proof.
  intros H. unfold formatBytes. by rewrite formatBytes_loop_small.
Qed.

Ltac loop_round :=
  rewrite formatBytes_loop_more by (try lia; by_1024).

Lemma formatBytes_KB (bytes : Q) :
  (1024 <= bytes)%Q → (bytes < 1048576)%Q →
  formatBytes bytes = toFixed2 (bytes / 1024) ++ utf16 " KB".
Proof.
  intros H1 H2. unfold formatBytes. change (length units) with 4%nat.
  loop_round. by rewrite formatBytes_loop_small by by_1024.
Qed.

Lemma formatBytes_MB (bytes : Q) :
  (1048576 <= bytes)%Q → (bytes < 1073741824)%Q →
  formatBytes bytes = toFixed2 (bytes / 1024 / 1024) ++ utf16 " MB".
Proof.
  intros H1 H2. unfold formatBytes. change (length units) with 4%nat.
  do 2 loop_round. by rewrite formatBytes_loop_small by by_1024.
Qed.

Lemma formatBytes_GB (bytes : Q) :
  (1073741824 <= bytes)%Q →
  formatBytes bytes = toFixed2 (bytes / 1024 / 1024 / 1024) ++ utf16 " GB".
Proof.
  intros H. unfold formatBytes. change (length units) with 4%nat.
  do 3 loop_round. cbn [formatBytes_loop].
  by rewrite andb_false_r.
Qed.

(** X14. For a count of magnitude below 10^21 (where [toFixed] prints
    plain digits), [formatBytes] picks the unit by the thresholds 1024,
    1024^2 and 1024^3 and shows the count divided by 1024 once per step
    up: B below 1024 (negative counts included), KB below 1024^2, MB below
    1024^3, and GB from there on, with no further scaling. *)
Theorem formatBytes_unit (bytes : Q) :
  (- (1000000000000000000000) < bytes)%Q →
  (bytes < 1000000000000000000000)%Q →
  ((bytes < 1024)%Q →
     formatBytes bytes = toFixed2 bytes ++ utf16 " B")
  ∧ ((1024 <= bytes)%Q → (bytes < 1048576)%Q →
     formatBytes bytes = toFixed2 (bytes / 1024) ++ utf16 " KB")
  ∧ ((1048576 <= bytes)%Q → (bytes < 1073741824)%Q →
     formatBytes bytes = toFixed2 (bytes / 1024 / 1024) ++ utf16 " MB")
  ∧ ((1073741824 <= bytes)%Q →
     formatBytes bytes
     = toFixed2 (bytes / 1024 / 1024 / 1024) ++ utf16 " GB").
Proof.
  intros _ _.
  split; [apply formatBytes_B|].
  split; [apply formatBytes_KB|].
  split; [apply formatBytes_MB|apply formatBytes_GB].
Qed.

Lemma formatBytes_unit_witness :
  formatBytes 1536 = utf16 "1.50 KB"
  ∧ formatBytes 17179869184000 = utf16 "16000.00 GB".
Proof.
  split.
  - destruct (formatBytes_unit 1536) as (_ & H & _);
      [reflexivity|reflexivity|].
    rewrite H; [reflexivity|vm_compute; discriminate|reflexivity].
  - destruct (formatBytes_unit 17179869184000) as (_ & _ & _ & H);
      [reflexivity|reflexivity|].
    rewrite H; [reflexivity|vm_compute; discriminate].
Defined.

Lemma hundredths_below (x : Q) :
  (x < 1024)%Q → (hundredths x ≤ 102400)%N.
Proof.
  intros Hx. unfold hundredths.
  assert (Qfloor (x * 100 + (1 # 2)) ≤ Qfloor (102400 + (1 # 2)))%Z as H
    by (apply Qfloor_resp_le; lra).
  change (Qfloor (102400 + (1 # 2))) with 102400%Z in H. lia.
Qed.

Lemma hundredths_above (x : Q) :
  (1 <= x)%Q → (100 ≤ hundredths x)%N.
Proof.
  intros Hx. unfold hundredths.
  assert (Qfloor (100 + (1 # 2)) ≤ Qfloor (x * 100 + (1 # 2)))%Z as H
    by (apply Qfloor_resp_le; lra).
  change (Qfloor (100 + (1 # 2))) with 100%Z in H. lia.
Qed.

Lemma toFixed2_nonneg (x : Q) :
  (0 <= x)%Q → toFixed2 x = fixed2 (hundredths x).
Proof. intros Hx. unfold toFixed2. by rewrite Qle_bool_true. Qed.

(** X15. For a non-negative byte count below 10^21, [formatBytes] shows a
    number of hundredths and one of the four units; the number shown is at least
    1.00 in every unit but B and at most 1024.00 in every unit but GB.
    1024.00 itself can be shown: rounding to two decimals happens after the
    unit is chosen (1048575 bytes are shown as "1024.00 KB"). *)
Theorem formatBytes_shown_range (bytes : Q) :
  (0 <= bytes)%Q → (bytes < 1000000000000000000000)%Q →
  ∃ n unit,
    formatBytes bytes = fixed2 n ++ utf16 " " ++ unit
    ∧ unit ∈ units
    ∧ (unit ≠ utf16 "GB" → (n ≤ 102400)%N)
    ∧ (unit ≠ utf16 "B" → (100 ≤ n)%N).
Proof.
  intros Hpos _.
  destruct (Qlt_le_dec bytes 1024) as [HB|HB].
  { exists (hundredths bytes), (utf16 "B").
    rewrite formatBytes_B, toFixed2_nonneg by done.
    split; [done|]. split; [by apply (bool_decide_unpack _)|].
    split; [intros _; by apply hundredths_below|done]. }
  destruct (Qlt_le_dec bytes 1048576) as [HK|HK].
  { exists (hundredths (bytes / 1024)), (utf16 "KB").
    rewrite formatBytes_KB, toFixed2_nonneg by (done || by_1024).
    split; [done|]. split; [by apply (bool_decide_unpack _)|].
    split; intros _; [apply hundredths_below|apply hundredths_above];
      by_1024. }
  destruct (Qlt_le_dec bytes 1073741824) as [HM|HM].
  { exists (hundredths (bytes / 1024 / 1024)), (utf16 "MB").
    rewrite formatBytes_MB, toFixed2_nonneg by (done || by_1024).
    split; [done|]. split; [by apply (bool_decide_unpack _)|].
    split; intros _; [apply hundredths_below|apply hundredths_above];
      by_1024. }
  exists (hundredths (bytes / 1024 / 1024 / 1024)), (utf16 "GB").
  rewrite formatBytes_GB, toFixed2_nonneg by (done || by_1024).
  split; [done|]. split; [by apply (bool_decide_unpack _)|].
  split; [done|]. intros _. apply hundredths_above. by_1024.
Qed.

Lemma formatBytes_shown_range_witness :
  ∃ n unit,
    formatBytes 1048575 = fixed2 n ++ utf16 " " ++ unit
    ∧ unit ∈ units
    ∧ (unit ≠ utf16 "GB" → (n ≤ 102400)%N)
    ∧ (unit ≠ utf16 "B" → (100 ≤ n)%N).
Proof.
  apply (formatBytes_shown_range 1048575);
    [vm_compute; discriminate|reflexivity].
Defined.

Example formatBytes_rounds_up_to_1024 :
  formatBytes 1048575 = utf16 "1024.00 KB".
Proof. vm_compute. reflexivity. Qed.

(** ** The component: pages *)

Lemma slice_range {A} (arr : list A) (start end_ : Z) :
  0 ≤ start → start ≤ end_ →
  slice arr start end_
  = take (Z.to_nat (end_ - start)) (drop (Z.to_nat start) arr).
Proof.
  intros Hstart Hend. unfold slice.
  destruct (Z.ltb_spec start 0) as [|_]; [lia|].
  destruct (Z.ltb_spec end_ 0) as [|_]; [lia|].
  set (len := Z.of_nat (length arr)).
  destruct (decide (len ≤ start)) as [Hout|Hin].
  - rewrite !drop_ge by lia. by rewrite !take_nil.
  - replace (Z.min start len) with start by lia.
    destruct (decide (end_ ≤ len)) as [Hfull|Hshort].
    + by replace (Z.min end_ len) with end_ by lia.
    + replace (Z.min end_ len) with len by lia.
      rewrite !take_ge; [done| |]; rewrite length_drop; lia.
Qed.

Lemma totalPages_ceiling (s : Component.t) :
  0 < Component.itemsPerPage s →
  (Component.totalPages s - 1) * Component.itemsPerPage s
    < Z.of_nat (length (Component.matchResults s))
  ∧ Z.of_nat (length (Component.matchResults s))
    ≤ Component.totalPages s * Component.itemsPerPage s.
Proof.
  intros Hp. unfold Component.totalPages.
  set (n := Z.of_nat (length (Component.matchResults s))).
  set (p := Component.itemsPerPage s) in *.
  pose proof (Z.div_mod (n + p - 1) p) as Hdiv.
  pose proof (Z.mod_pos_bound (n + p - 1) p Hp) as Hmod.
  nia.
Qed.

Lemma paginatedResults_chunk (s : Component.t) :
  0 < Component.itemsPerPage s → 1 ≤ Component.currentPage s →
  Component.paginatedResults s
  = take (Z.to_nat (Component.itemsPerPage s))
      (drop (Z.to_nat ((Component.currentPage s - 1)
                        * Component.itemsPerPage s))
            (Component.matchResults s)).
Proof.
  intros Hp Hc. unfold Component.paginatedResults. cbv zeta.
  rewrite slice_range by nia. do 2 f_equal. lia.
Qed.

Lemma chunks_concat {A} (p count : nat) (l : list A) :
  (length l ≤ count * p)%nat →
  concat ((λ k, take p (drop (k * p) l)) <$> seq 0 count) = l.
Proof.
  revert l. induction count as [|count IH]; intros l Hlen.
  - destruct l; [done|simpl in Hlen; lia].
  - cbn [seq fmap list_fmap concat].
    rewrite <- fmap_S_seq, <- list_fmap_compose.
    transitivity (take p l ++ drop p l); [|apply take_drop].
    f_equal.
    rewrite <- (IH (drop p l)) by (rewrite length_drop; lia).
    f_equal. apply list_fmap_ext. intros _ k _. simpl.
    rewrite drop_drop. do 2 f_equal; lia.
Qed.

(** X16. The pages partition the results: with a positive page size, the
    pages numbered 1 to [totalPages], shown one after the other, are the
    result list, each result once and in order. *)
Theorem pages_cover_results (s : Component.t) :
  0 < Component.itemsPerPage s →
  concat ((λ page, page_shown (Z.of_nat page) s)
            <$> seq 1 (Z.to_nat (Component.totalPages s)))
  = Component.matchResults s.
Proof.
  intros Hp.
  pose proof (totalPages_ceiling s Hp) as [_ Hceil].
  rewrite <- fmap_S_seq, <- list_fmap_compose.
  etrans;
    [|apply (chunks_concat (Z.to_nat (Component.itemsPerPage s))
               (Z.to_nat (Component.totalPages s))
               (Component.matchResults s)); nia].
  f_equal. apply list_fmap_ext. intros _ k _. simpl. unfold page_shown.
  rewrite paginatedResults_chunk by (simpl; lia). simpl.
  do 2 f_equal; nia.
Qed.

Lemma pages_cover_results_witness :
  concat ((λ page, page_shown (Z.of_nat page)
                     (Component.set_matchResults
                        (replicate 23 match_A) Component.initial))
            <$> seq 1 3)
  = replicate 23 match_A.
Proof.
  apply (pages_cover_results
           (Component.set_matchResults (replicate 23 match_A)
              Component.initial)).
  reflexivity.
Defined.

(** ** The component: what every state satisfies *)

Ltac component_unfold :=
  unfold Component.loadDifficultyTypeOptions, Component.selectStudentFile,
    Component.selectDifficultyFile, Component.validateAndSetFile,
    Component.performMatch_start, Component.performMatch_finish,
    Component.resetAll, Component.goToPage, Component.nextPage,
    Component.prevPage, Component.resetPagination,
    Component.errorTimeout, Component.successTimeout,
    Component.exportToExcel_start, Component.exportToExcel_saving,
    Component.exportToExcel_finish, Component.setError,
    Component.setSuccess in *.

Lemma component_invariant_initial : component_invariant Component.initial.
Proof.
  unfold component_invariant, page_in_range. simpl.
  repeat split; try lia; try (by left); try discriminate.
Qed.

Lemma component_invariant_step invoke s s' :
  component_invariant s → Component.step invoke s s' →
  component_invariant s'.
Proof.
  intros (Hpage & Hsize & Hmsg & Hstats) Hstep.
  unfold component_invariant, page_in_range, Component.totalPages in *.
  destruct Hstep; component_unfold;
    repeat (case_match; simplify_eq/=);
    repeat split; simpl in *; eauto; try lia; try done;
    unfold Component.totalPages in *;
    repeat match goal with
           | H : _ && _ = true |- _ => apply andb_true_iff in H as [? ?]
           | H : (_ <=? _) = true |- _ => apply Z.leb_le in H
           | H : (_ <? _) = true |- _ => apply Z.ltb_lt in H
           end; lia.
Qed.

Lemma reachable_invariant invoke s :
  Component.reachable invoke s → component_invariant s.
Proof.
  induction 1 as [|s s' _ IH Hstep].
  - apply component_invariant_initial.
  - by apply (component_invariant_step invoke s s').
Qed.

Lemma paginatedResults_length (s : Component.t) :
  0 < Component.itemsPerPage s → 1 ≤ Component.currentPage s →
  Z.of_nat (length (Component.paginatedResults s))
  = Z.max 0
      (Z.min (Component.currentPage s * Component.itemsPerPage s)
             (Z.of_nat (length (Component.matchResults s)))
       - (Component.currentPage s - 1) * Component.itemsPerPage s).
Proof.
  intros Hp Hc. rewrite paginatedResults_chunk by done.
  rewrite length_take, length_drop. nia.
Qed.

(** X17. In every state the component can reach, whatever the backend
    answers and in whatever order the handlers run, the page number lies
    between 1 and the number of pages whenever there are results, and the
    table then shows at least one and at most ten of them. *)
Theorem reachable_page_never_empty invoke (s : Component.t) :
  Component.reachable invoke s →
  Component.matchResults s ≠ [] →
  1 ≤ Component.currentPage s ≤ Component.totalPages s
  ∧ (1 ≤ length (Component.paginatedResults s) ≤ 10)%nat.
Proof.
  intros (Hpage & Hsize & _)%reachable_invariant Hresults.
  assert (0 < Component.itemsPerPage s) as Hp by lia.
  pose proof (totalPages_ceiling s Hp) as [Hlow Hhigh].
  assert (0 < Z.of_nat (length (Component.matchResults s))) as Hn
    by (destruct (Component.matchResults s); simpl; [done|lia]).
  destruct Hpage as [Hc1 Hc2].
  assert (Component.currentPage s ≤ Component.totalPages s) as Hc by nia.
  split; [lia|].
  pose proof (paginatedResults_length s Hp Hc1) as Hlen.
  rewrite Hsize in *. nia.
Qed.

Lemma reachable_page_never_empty_witness :
  (1 ≤ length (Component.paginatedResults
                 (Component.performMatch_finish
                    (Fulfilled
                       {| SearchResult.matches := replicate 23 match_A;
                          SearchResult.statistics := statistics_A;
                          SearchResult.success := true;
                          SearchResult.error := None |})
                    Component.initial)) ≤ 10)%nat.
Proof.
  apply (reachable_page_never_empty backend_match_fails).
  - eapply Component.reachable_step; [apply Component.reachable_initial|].
    apply Component.step_performMatch_finish.
  - discriminate.
Defined.

(** X18. The component never shows an error message and a success message
    at the same time: in every state it can reach, at least one of the
    two is empty. *)
Theorem reachable_one_message invoke (s : Component.t) :
  Component.reachable invoke s →
  Component.error s = [] ∨ Component.success s = [].
Proof. by intros (_ & _ & Hmsg & _)%reachable_invariant. Qed.

Lemma reachable_student_chosen invoke :
  Component.reachable invoke state_student_chosen.
Proof.
  eapply Component.reachable_step; [apply Component.reachable_initial|].
  apply Component.step_selectStudentFile.
Qed.

Lemma reachable_ready invoke : Component.reachable invoke state_ready.
Proof.
  eapply Component.reachable_step;
    [|apply Component.step_bind_selectedDifficultyType].
  eapply Component.reachable_step; [apply reachable_student_chosen|].
  apply Component.step_selectDifficultyFile.
Qed.

Lemma reachable_one_message_witness :
  Component.error
    (Component.exportToExcel_finish (Rejected (utf16 "disk full"))
       state_student_chosen) = []
  ∨ Component.success
      (Component.exportToExcel_finish (Rejected (utf16 "disk full"))
         state_student_chosen) = [].
Proof.
  apply (reachable_one_message backend_match_fails).
  eapply Component.reachable_step; [apply reachable_student_chosen|].
  apply Component.step_exportToExcel_finish.
Defined.

(** X19. Whenever the component is marked as having searched, it holds
    statistics: in every reachable state, [hasSearched] implies that
    [matchStatistics] is not [null]. *)
Theorem reachable_searched_has_statistics invoke (s : Component.t) :
  Component.reachable invoke s →
  Component.hasSearched s = true →
  is_Some (Component.matchStatistics s).
Proof. by intros (_ & _ & _ & Hstats)%reachable_invariant. Qed.

Lemma reachable_searched_has_statistics_witness :
  is_Some (Component.matchStatistics
             (Component.performMatch_finish
                (Fulfilled
                   {| SearchResult.matches := [match_A];
                      SearchResult.statistics := statistics_A;
                      SearchResult.success := true;
                      SearchResult.error := None |})
                state_ready)).
Proof.
  apply (reachable_searched_has_statistics backend_match_fails).
  - eapply Component.reachable_step; [apply reachable_ready|].
    apply Component.step_performMatch_finish.
  - reflexivity.
Defined.

(** X20. What a page shows, for a positive page size and a page number
    between 1 and the number of pages: row [i] of the page (numbered
    [(currentPage - 1) * itemsPerPage + i + 1] in the table) is the result
    at that position of the list, and the page holds the results from
    number [(currentPage - 1) * itemsPerPage + 1] to number
    [min (currentPage * itemsPerPage) length], the range the footer
    prints. *)
Theorem paginatedResults_rows (s : Component.t) :
  0 < Component.itemsPerPage s →
  1 ≤ Component.currentPage s ≤ Component.totalPages s →
  (∀ i, (i < length (Component.paginatedResults s))%nat →
        Component.paginatedResults s !! i
        = Component.matchResults s
            !! Z.to_nat ((Component.currentPage s - 1)
                         * Component.itemsPerPage s + Z.of_nat i))
  ∧ Z.of_nat (length (Component.paginatedResults s))
    = Z.min (Component.currentPage s * Component.itemsPerPage s)
            (Z.of_nat (length (Component.matchResults s)))
      - (Component.currentPage s - 1) * Component.itemsPerPage s
  ∧ (1 ≤ length (Component.paginatedResults s))%nat.
Proof.
  intros Hp [Hc1 Hc2].
  pose proof (totalPages_ceiling s Hp) as [Hlow Hhigh].
  pose proof (paginatedResults_length s Hp Hc1) as Hlen.
  split; [|split; nia].
  intros i Hi. rewrite paginatedResults_chunk in * by done.
  rewrite lookup_take_lt by (rewrite length_take in Hi; lia).
  rewrite lookup_drop. f_equal. nia.
Qed.

Lemma paginatedResults_rows_witness :
  Z.of_nat (length (page_shown 3
                      (Component.set_matchResults (replicate 23 match_A)
                         Component.initial))) = 3.
Proof.
  destruct (paginatedResults_rows
              (Component.set_currentPage 3
                 (Component.set_matchResults (replicate 23 match_A)
                    Component.initial))) as (_ & Hlen & _).
  - reflexivity.
  - split; vm_compute; discriminate.
  - exact Hlen.
Defined.

Lemma set_currentPage_same (s : Component.t) page :
  page = Component.currentPage s → Component.set_currentPage page s = s.
Proof. intros ->. by destruct s. Qed.

Lemma set_currentPage_twice (s : Component.t) page1 page2 :
  Component.set_currentPage page2 (Component.set_currentPage page1 s)
  = Component.set_currentPage page2 s.
Proof. done. Qed.

(** X21. Moving between pages: from a page that is not the last,
    [nextPage] then [prevPage] comes back to the same state, and from a
    page after the first, [prevPage] then [nextPage] does; [goToPage] moves
    to any page between 1 and [totalPages] and ignores any other number. *)
Theorem page_navigation (s : Component.t) :
  1 ≤ Component.currentPage s →
  (Component.currentPage s < Component.totalPages s →
     Component.currentPage (Component.nextPage s)
     = Component.currentPage s + 1
     ∧ Component.prevPage (Component.nextPage s) = s)
  ∧ (1 < Component.currentPage s ≤ Component.totalPages s →
     Component.currentPage (Component.prevPage s)
     = Component.currentPage s - 1
     ∧ Component.nextPage (Component.prevPage s) = s)
  ∧ (∀ page,
       Component.goToPage page s
       = if decide (1 ≤ page ≤ Component.totalPages s)
         then Component.set_currentPage page s else s).
Proof.
  intros Hc. split; [|split].
  - intros Hlast. unfold Component.nextPage.
    rewrite (proj2 (Z.ltb_lt _ _) Hlast). split; [done|].
    unfold Component.prevPage. simpl.
    rewrite (proj2 (Z.ltb_lt 1 (Component.currentPage s + 1))) by lia.
    rewrite set_currentPage_twice. apply set_currentPage_same. lia.
  - intros [Hfirst Hlast]. unfold Component.prevPage.
    rewrite (proj2 (Z.ltb_lt _ _) Hfirst). split; [done|].
    unfold Component.nextPage. simpl.
    change (Component.totalPages (Component.set_currentPage _ s))
      with (Component.totalPages s).
    rewrite (proj2 (Z.ltb_lt (Component.currentPage s - 1)
                      (Component.totalPages s))) by lia.
    rewrite set_currentPage_twice. apply set_currentPage_same. lia.
  - intros page. unfold Component.goToPage.
    destruct (Z.leb_spec 1 page), (Z.leb_spec page (Component.totalPages s));
      case_decide; simpl; try done; lia.
Qed.

Lemma page_navigation_witness :
  Component.prevPage
    (Component.nextPage
       (Component.set_matchResults (replicate 23 match_A) Component.initial))
  = Component.set_matchResults (replicate 23 match_A) Component.initial.
Proof.
  apply (page_navigation
           (Component.set_matchResults (replicate 23 match_A)
              Component.initial)).
  - vm_compute. discriminate.
  - reflexivity.
Defined.

(** ** The component: searching and exporting *)

Lemma executeStudentSearch_fulfilled (invoke : Backend) a b c :
  ∃ result, executeStudentSearch invoke a b c = Fulfilled result.
Proof.
  unfold executeStudentSearch.
  destruct (promiseAll _ _ _) as [[matchResult statsResult]|reason];
    [|eauto].
  destruct (negb (CommandResult.success matchResult)); [eauto|].
  destruct (negb (CommandResult.success statsResult)); eauto.
Qed.

(** X22. A search that does not succeed leaves the results on screen as
    they were: when the awaited search throws or reports a failure,
    [performMatch] changes neither the result list, the statistics nor the
    page; it clears the loading and has-searched flags and the success
    message, and sets an error message that starts with "匹配失败: ". The
    matches a failed combined search may carry are not used. *)
Theorem performMatch_failure_keeps_results
    (outcome : Settled SearchResult.t) (s : Component.t) :
  (∀ result, outcome = Fulfilled result →
             SearchResult.success result = false) →
  Component.matchResults (Component.performMatch_finish outcome s)
  = Component.matchResults s
  ∧ Component.matchStatistics (Component.performMatch_finish outcome s)
    = Component.matchStatistics s
  ∧ Component.currentPage (Component.performMatch_finish outcome s)
    = Component.currentPage s
  ∧ Component.hasSearched (Component.performMatch_finish outcome s) = false
  ∧ Component.isLoading (Component.performMatch_finish outcome s) = false
  ∧ Component.success (Component.performMatch_finish outcome s) = []
  ∧ ∃ detail,
      Component.error (Component.performMatch_finish outcome s)
      = utf16 "匹配失败: " ++ detail.
Proof.
  intros Hfailed. unfold Component.performMatch_finish.
  destruct outcome as [result|err]; simpl.
  - rewrite (Hfailed result eq_refl). simpl. repeat split; eauto.
  - repeat split; eauto.
Qed.

Lemma performMatch_failure_keeps_results_witness :
  Component.matchResults
    (Component.performMatch_finish
       (Fulfilled
          {| SearchResult.matches := [match_A];
             SearchResult.statistics := noStatistics;
             SearchResult.success := false;
             SearchResult.error := Some (utf16 "no statistics") |})
       state_ready)
  = [].
Proof.
  apply (performMatch_failure_keeps_results
           (Fulfilled
              {| SearchResult.matches := [match_A];
                 SearchResult.statistics := noStatistics;
                 SearchResult.success := false;
                 SearchResult.error := Some (utf16 "no statistics") |})
           state_ready).
  intros result [= <-]. reflexivity.
Defined.

(** X23. [performMatch] does nothing unless a student file, a difficulty
    file and a difficulty type are all chosen. When they are, and nothing
    else runs meanwhile, it ends with the loading flag off and exactly one
    message: on a successful combined search the matches and statistics
    of that search are installed, the page is 1 and the success message is
    set; otherwise the result list is untouched and the error message is
    set. *)
Theorem performMatch_outcome (invoke : Backend) (s : Component.t) :
  (Component.canMatch s = false → Component.performMatch invoke s = s)
  ∧ (Component.canMatch s = true →
     ∃ studentFile difficultyFile result,
       Component.studentFile s = Some studentFile
       ∧ Component.difficultyFile s = Some difficultyFile
       ∧ executeStudentSearch invoke
           (FileInfo.path studentFile) (FileInfo.path difficultyFile)
           (Component.selectedDifficultyType s)
         = Fulfilled result
       ∧ Component.isLoading (Component.performMatch invoke s) = false
       ∧ (SearchResult.success result = true →
          Component.matchResults (Component.performMatch invoke s)
          = SearchResult.matches result
          ∧ Component.matchStatistics (Component.performMatch invoke s)
            = Some (SearchResult.statistics result)
          ∧ Component.currentPage (Component.performMatch invoke s) = 1
          ∧ Component.hasSearched (Component.performMatch invoke s) = true
          ∧ Component.error (Component.performMatch invoke s) = []
          ∧ Component.success (Component.performMatch invoke s) ≠ [])
       ∧ (SearchResult.success result = false →
          Component.matchResults (Component.performMatch invoke s)
          = Component.matchResults s
          ∧ Component.hasSearched (Component.performMatch invoke s) = false
          ∧ Component.error (Component.performMatch invoke s) ≠ []
          ∧ Component.success (Component.performMatch invoke s) = [])).
Proof.
  unfold Component.performMatch, Component.performMatch_start. split.
  - by intros ->.
  - intros Hcan. rewrite Hcan. simpl.
    unfold Component.canMatch in Hcan.
    destruct (Component.studentFile s) as [studentFile|]; [|done].
    destruct (Component.difficultyFile s) as [difficultyFile|]; [|done].
    destruct (executeStudentSearch_fulfilled invoke
                (FileInfo.path studentFile) (FileInfo.path difficultyFile)
                (Component.selectedDifficultyType s)) as [result Hresult].
    exists studentFile, difficultyFile, result. rewrite Hresult.
    split; [done|]. split; [done|]. split; [done|].
    unfold Component.performMatch_finish. split; [done|].
    split; intros ->; simpl; repeat split; try done.
Qed.

Lemma performMatch_outcome_witness :
  (Component.matchResults
     (Component.performMatch backend_both_succeed state_ready) = [match_A]
   ∧ Component.currentPage
       (Component.performMatch backend_both_succeed state_ready) = 1
   ∧ Component.error
       (Component.performMatch backend_both_succeed state_ready) = [])
  ∧ (Component.matchResults
       (Component.performMatch backend_statistics_fail state_ready) = []
     ∧ Component.hasSearched
         (Component.performMatch backend_statistics_fail state_ready) = false
     ∧ Component.success
         (Component.performMatch backend_statistics_fail state_ready) = []).
Proof.
  split.
  - destruct (proj2 (performMatch_outcome backend_both_succeed state_ready)
                eq_refl)
      as (studentFile & difficultyFile & result & Hs & Hd & Hresult & _
          & Hsuccess & _).
    injection Hs as <-. injection Hd as <-. injection Hresult as <-.
    destruct (Hsuccess eq_refl) as (Hmatches & _ & Hpage & _ & Herror & _).
    split; [exact Hmatches|]. split; [exact Hpage|exact Herror].
  - destruct (proj2 (performMatch_outcome backend_statistics_fail state_ready)
                eq_refl)
      as (studentFile & difficultyFile & result & Hs & Hd & Hresult & _
          & _ & Hfailure).
    injection Hs as <-. injection Hd as <-. injection Hresult as <-.
    destruct (Hfailure eq_refl) as (Hmatches & Hsearched & _ & Hsuccess).
    split; [exact Hmatches|]. split; [exact Hsearched|exact Hsuccess].
Defined.

Lemma endsWith_app (s t : jsstring) : endsWith (s ++ t) t = true.
Proof.
  unfold endsWith. apply bool_decide_eq_true.
  rewrite length_app.
  replace (length s + length t - length t)%nat with (length s) by lia.
  apply drop_app_length.
Qed.

(** X24. The path handed to the export command always ends in ".xlsx":
    a chosen path that already ends so is kept as it is, any other gets
    ".xlsx" appended (the test is case-sensitive, so "report.XLSX" becomes
    "report.XLSX.xlsx"). In particular the default file name of the save
    dialog is kept unchanged. *)
Theorem exportOutputPath_xlsx (savePath : jsstring) :
  endsWith (Component.exportOutputPath savePath) (utf16 ".xlsx") = true
  ∧ (endsWith savePath (utf16 ".xlsx") = true →
     Component.exportOutputPath savePath = savePath)
  ∧ (endsWith savePath (utf16 ".xlsx") = false →
     Component.exportOutputPath savePath = savePath ++ utf16 ".xlsx")
  ∧ Component.exportOutputPath (Component.exportOutputPath savePath)
    = Component.exportOutputPath savePath
  ∧ ∀ now s,
      Component.exportOutputPath (Component.exportFileName now s)
      = Component.exportFileName now s.
Proof.
  assert (∀ p, endsWith p (utf16 ".xlsx") = true →
               Component.exportOutputPath p = p) as Hkeep.
  { intros p Hp. unfold Component.exportOutputPath. by rewrite Hp. }
  assert (endsWith (Component.exportOutputPath savePath) (utf16 ".xlsx")
          = true) as Hends.
  { unfold Component.exportOutputPath.
    destruct (endsWith savePath (utf16 ".xlsx")) eqn:Hp; [done|].
    apply endsWith_app. }
  split; [exact Hends|]. split; [apply Hkeep|]. split.
  - intros Hp. unfold Component.exportOutputPath. by rewrite Hp.
  - split; [by apply Hkeep|].
    intros now s. apply Hkeep. unfold Component.exportFileName.
    rewrite !app_assoc. apply endsWith_app.
Qed.

Lemma exportOutputPath_xlsx_witness :
  Component.exportOutputPath (utf16 "report.XLSX") = utf16 "report.XLSX.xlsx"
  ∧ Component.exportOutputPath (utf16 "report.xlsx") = utf16 "report.xlsx".
Proof.
  split.
  - destruct (exportOutputPath_xlsx (utf16 "report.XLSX")) as (_ & _ & H & _).
    apply H. reflexivity.
  - destruct (exportOutputPath_xlsx (utf16 "report.xlsx")) as (_ & H & _).
    apply H. reflexivity.
Defined.

(** X25. A file dialog that fails or is cancelled changes nothing and
    reports nothing: [openFileDialog] never rejects and answers [null]
    when the plugin call throws or nothing was selected, and
    [selectStudentFile] and [selectDifficultyFile] then leave the
    component state as it was, without any message. *)
Theorem openFileDialog_silent
    (open : jsstring → list jsstring → Settled Selection)
    (title : jsstring) (extensions : option (list jsstring))
    (validation : jsstring → Settled (CommandResult.t FileInfo.t))
    (s : Component.t) :
  (∃ answer, openFileDialog open title extensions = Fulfilled answer)
  ∧ ((∃ err, open title (default [utf16 "xlsx"; utf16 "xls"] extensions)
             = Rejected err)
     ∨ open title (default [utf16 "xlsx"; utf16 "xls"] extensions)
       = Fulfilled NoSelection →
     openFileDialog open title extensions = Fulfilled None
     ∧ Component.selectStudentFile
         (openFileDialog open title extensions) validation s = s
     ∧ Component.selectDifficultyFile
         (openFileDialog open title extensions) validation s = s).
Proof.
  unfold openFileDialog. split.
  - destruct (open title _); eauto.
  - intros [[err ->]| ->]; done.
Qed.

Lemma openFileDialog_silent_witness :
  Component.selectStudentFile
    (openFileDialog (λ _ _, Rejected (utf16 "no display"))
       (utf16 "选择学生信息表") None)
    (λ _, Fulfilled (CommandResult.mk true (Some file_students) None))
    Component.initial
  = Component.initial.
Proof.
  apply (openFileDialog_silent (λ _ _, Rejected (utf16 "no display"))).
  left. by exists (utf16 "no display").
Defined.

(** X26. An export is never started with nothing to export, and it always
    clears its busy flag: with an empty result list [exportToExcel] only
    sets the error message "没有可导出的数据"; when the save dialog is
    cancelled or fails, and when the export command has settled in
    whatever way, [isExporting] is false again. [saveFileDialog] itself
    never rejects. *)
Theorem exportToExcel_flag
    (save : jsstring → option jsstring → list jsstring
            → Settled (option jsstring))
    (title : jsstring) (defaultName : option jsstring)
    (extensions : option (list jsstring))
    (outcome : Settled (CommandResult.t jsstring)) (s : Component.t) :
  (Component.matchResults s = [] →
     Component.exportToExcel_start s
     = inl (Component.setError (utf16 "没有可导出的数据") s))
  ∧ (Component.matchResults s ≠ [] →
     Component.exportToExcel_start s
     = inr (Component.set_isExporting true s))
  ∧ (∃ answer,
       saveFileDialog save title defaultName extensions = Fulfilled answer
       ∧ ∀ s',
           Component.exportToExcel_saving
             (saveFileDialog save title defaultName extensions) s = inl s' →
           Component.isExporting s' = false
           ∧ Component.error s' = Component.error s
           ∧ Component.success s' = Component.success s)
  ∧ Component.isExporting (Component.exportToExcel_finish outcome s) = false.
Proof.
  split; [|split; [|split]].
  - intros Hnone. unfold Component.exportToExcel_start. by rewrite Hnone.
  - intros Hsome. unfold Component.exportToExcel_start.
    by destruct (Component.matchResults s).
  - unfold saveFileDialog.
    destruct (save title defaultName _) as [answer|err]; eexists;
      (split; [reflexivity|]); intros s'; simpl;
      try destruct (negb _); by intros [= <-].
  - by destruct outcome.
Qed.

Lemma exportToExcel_flag_witness :
  Component.exportToExcel_start state_searched
  = inr (Component.set_isExporting true state_searched)
  ∧ Component.isExporting
      (Component.exportToExcel_finish
         (Fulfilled (CommandResult.mk true (Some (utf16 "/out/r.xlsx")) None))
         (Component.set_isExporting true state_searched)) = false
  ∧ ∃ s',
      Component.exportToExcel_saving
        (saveFileDialog (λ _ _ _, Rejected (utf16 "no display"))
           (utf16 "保存 Excel 文件") None (Some [utf16 "xlsx"]))
        (Component.set_isExporting true state_searched) = inl s'
      ∧ Component.isExporting s' = false
      ∧ Component.error s'
        = Component.error (Component.set_isExporting true state_searched)
      ∧ Component.success s'
        = Component.success (Component.set_isExporting true state_searched).
Proof.
  split; [|split].
  - destruct (exportToExcel_flag (λ _ _ _, Fulfilled None) [] None None
                (Rejected []) state_searched) as (_ & Hstart & _).
    apply Hstart. discriminate.
  - destruct (exportToExcel_flag (λ _ _ _, Fulfilled None) [] None None
                (Fulfilled
                   (CommandResult.mk true (Some (utf16 "/out/r.xlsx")) None))
                (Component.set_isExporting true state_searched))
      as (_ & _ & _ & Hfinish).
    exact Hfinish.
  - destruct (exportToExcel_flag (λ _ _ _, Rejected (utf16 "no display"))
                (utf16 "保存 Excel 文件") None (Some [utf16 "xlsx"])
                (Rejected [])
                (Component.set_isExporting true state_searched))
      as (_ & _ & (answer & _ & Hsaving) & _).
    eexists. split; [reflexivity|]. apply Hsaving. reflexivity.
Defined.

(** X27. Validating a chosen file touches the file of the kind asked for
    and nothing else of the selection: when the validation succeeds with a
    file description, that description replaces the student file (or the
    difficulty file) and the other file is kept; when it fails or throws,
    both files are kept as they were and the error message starts with
    "文件验证失败: ". *)
Theorem validateAndSetFile_selection
    (fileType : Component.FileType)
    (outcome : Settled (CommandResult.t FileInfo.t)) (s : Component.t) :
  (∀ result data,
     outcome = Fulfilled result →
     CommandResult.success result = true →
     CommandResult.data result = Some data →
     Component.studentFile (Component.validateAndSetFile fileType outcome s)
     = match fileType with
       | Component.student_file => Some data
       | Component.difficulty_file => Component.studentFile s
       end
     ∧ Component.difficultyFile
         (Component.validateAndSetFile fileType outcome s)
       = match fileType with
         | Component.student_file => Component.difficultyFile s
         | Component.difficulty_file => Some data
         end
     ∧ Component.error (Component.validateAndSetFile fileType outcome s) = [])
  ∧ ((∀ result data,
        outcome = Fulfilled result →
        CommandResult.success result = true →
        CommandResult.data result ≠ Some data) →
     Component.studentFile (Component.validateAndSetFile fileType outcome s)
     = Component.studentFile s
     ∧ Component.difficultyFile
         (Component.validateAndSetFile fileType outcome s)
       = Component.difficultyFile s
     ∧ ∃ detail,
         Component.error (Component.validateAndSetFile fileType outcome s)
         = utf16 "文件验证失败: " ++ detail).
Proof.
  unfold Component.validateAndSetFile. split.
  - intros result data -> -> ->. by destruct fileType.
  - intros Hfailed. destruct outcome as [result|err]; simpl; [|eauto].
    destruct (CommandResult.success result) eqn:Hs; simpl; [|eauto].
    destruct (CommandResult.data result) as [data|] eqn:Hd; simpl; [|eauto].
    by destruct (Hfailed result data).
Qed.

Lemma validateAndSetFile_selection_witness :
  Component.studentFile
    (Component.validateAndSetFile Component.difficulty_file
       (Fulfilled (CommandResult.mk true (Some file_difficulty) None))
       state_student_chosen)
  = Some file_students.
Proof.
  destruct (validateAndSetFile_selection Component.difficulty_file
              (Fulfilled (CommandResult.mk true (Some file_difficulty) None))
              state_student_chosen) as [H _].
  destruct (H _ file_difficulty eq_refl eq_refl eq_refl) as [Hs _].
  exact Hs.
Defined.

(** X28. [resetAll] brings the component back to its initial state except
    for two things it does not touch: the loaded difficulty type options
    and the loading flag. After it nothing can be matched until files and
    a type are chosen again. *)
Theorem resetAll_initial (s : Component.t) :
  Component.itemsPerPage s = 10 →
  Component.resetAll s
  = Component.set_isLoading (Component.isLoading s)
      (Component.set_difficultyTypeOptions (Component.difficultyTypeOptions s)
         Component.initial)
  ∧ Component.canMatch (Component.resetAll s) = false.
Proof.
  intros Hsize. destruct s. simpl in Hsize. subst. done.
Qed.

Lemma resetAll_initial_witness :
  Component.canMatch (Component.resetAll state_ready) = false.
Proof. by apply (resetAll_initial state_ready). Defined.
